(** * better-thinking-mcp: the step validator, the history and branch store
      and the frame renderer of [src/better-thinking-tool.ts]

    The development embeds the class [BetterThinkingToolLogic] shallowly:
    JavaScript values are an inductive type, strings are sequences of UTF-16
    code units (what [String.prototype.length], [padEnd] and a regular
    expression without the [u] flag work on), the instance fields
    [thoughtHistory] and [branches] together with the console form the state
    threaded through a small state-and-exception monad, and [try]/[catch]
    keeps whatever the [try] block stored before it threw. *)

From Stdlib Require Import List NArith ZArith QArith Bool String Ascii Lia.
From Stdlib Require Import Qabs Qround Permutation DecimalString.
Import ListNotations.

Set Implicit Arguments.
Set Warnings "-register-all".
Close Scope Q_scope.
Local Open Scope nat_scope.
Local Open Scope list_scope.
Local Open Scope bool_scope.

(* ====================================================================== *)
(** ** Strings: sequences of UTF-16 code units *)
(* ====================================================================== *)

Definition code_unit := N.
Definition jsstring := list code_unit.

(** An ASCII literal of the source as a sequence of code units. *)
Definition lit (s : string) : jsstring :=
  map N_of_ascii (list_ascii_of_string s).

Definition LF : code_unit := 10%N.
Definition SPACE : code_unit := 32%N.

Fixpoint str_eqb (a b : jsstring) : bool :=
  match a, b with
  | [], [] => true
  | x :: a', y :: b' => N.eqb x y && str_eqb a' b'
  | _, _ => false
  end.

(** [s.split('\n')]: never empty, the empty string gives one empty piece. *)
Fixpoint split_lines (s : jsstring) : list jsstring :=
  match s with
  | [] => [[]]
  | c :: s' =>
      if N.eqb c LF then [] :: split_lines s'
      else match split_lines s' with
           | l :: ls => (c :: l) :: ls
           | [] => [[c]]
           end
  end.

(** [pieces.join('\n')]. *)
Fixpoint join_lines (pieces : list jsstring) : jsstring :=
  match pieces with
  | [] => []
  | [p] => p
  | p :: rest => p ++ LF :: join_lines rest
  end.

(** [unit.repeat(n)]. *)
Fixpoint str_repeat (unit : jsstring) (n : nat) : jsstring :=
  match n with
  | O => []
  | S n' => unit ++ str_repeat unit n'
  end.

(** [s.padEnd(n)]: spaces are added up to [n] code units, counted on the raw
    string; a string that is already that long is returned as it is. *)
Definition padEnd (s : jsstring) (n : nat) : jsstring :=
  s ++ repeat SPACE (n - List.length s).

(** Decimal digits of a natural number, as [String(n)] prints an integer
    below 10^21. *)
Definition digits (n : N) : jsstring :=
  lit (NilZero.string_of_uint (N.to_uint n)).

(** [Math.max(0, ...xs)]. *)
Definition max_list (xs : list nat) : nat := fold_right Nat.max 0 xs.

(* ====================================================================== *)
(** ** Regular expressions with JavaScript's backtracking priority *)
(* ====================================================================== *)

(** The fragment the source uses: character classes, concatenation and greedy
    bounded or unbounded repetition. *)
Inductive regex :=
| Class (p : code_unit -> bool)
| Cat (r1 r2 : regex)
| Rep (r : regex) (lo hi : nat)      (* r{lo,hi}, greedy *)
| Star (r : regex).                  (* r*, greedy *)

(** Greedy iteration of [step]: at most [hi] rounds, at least [lo]; the
    results list the possible remainders in the order a backtracking matcher
    tries them, longest iteration first. *)
Fixpoint iterate (step : jsstring -> list jsstring) (lo hi : nat)
         (s : jsstring) : list jsstring :=
  match hi with
  | O => if Nat.eqb lo 0 then [s] else []
  | S hi' =>
      flat_map (iterate step (Nat.pred lo) hi') (step s)
      ++ (if Nat.eqb lo 0 then [s] else [])
  end.

(** [matches r s]: the remainders of [s] after a match of [r] at its start,
    in backtracking order.  An iteration of [Star] consumes at least one code
    unit (ECMAScript rejects empty iterations), so the input length bounds
    the number of rounds. *)
Fixpoint matches (r : regex) (s : jsstring) : list jsstring :=
  match r with
  | Class p =>
      match s with
      | c :: s' => if p c then [s'] else []
      | [] => []
      end
  | Cat r1 r2 => flat_map (matches r2) (matches r1 s)
  | Rep r' lo hi => iterate (matches r') lo hi s
  | Star r' => iterate (matches r') 0 (List.length s) s
  end.

(** The match the engine reports at the start of [s]: the first in
    backtracking order. *)
Definition exec (r : regex) (s : jsstring) : option jsstring :=
  hd_error (matches r s).

(** The scan of [s.replace(/r/g, '')], left to right: drop each match and
    resume after it; where no match starts (or only an empty one) keep the
    code unit.  [fuel] bounds the number of steps. *)
Fixpoint remove_all (fuel : nat) (r : regex) (s : jsstring) : jsstring :=
  match fuel with
  | O => s
  | S fuel' =>
      match s with
      | [] => []
      | c :: s' =>
          match exec r s with
          | Some rest =>
              if Nat.ltb (List.length rest) (List.length s)
              then remove_all fuel' r rest
              else c :: remove_all fuel' r s'
          | None => c :: remove_all fuel' r s'
          end
      end
  end.

(** [s.replace(/r/g, '')]: every step takes at least one code unit off the
    input, so its length is fuel enough. *)
Definition erase (r : regex) (s : jsstring) : jsstring :=
  remove_all (List.length s) r s.

Definition in_range (lo hi c : N) : bool := N.leb lo c && N.leb c hi.
Definition one_of (cs : string) (c : code_unit) : bool :=
  existsb (N.eqb c) (lit cs).

Definition digit : regex := Class (in_range 48 57).
Definition opt (r : regex) : regex := Rep r 0 1.

(** The regular expression of [stripAnsi], piece by piece: the introducer
    ESC (U+001B) or CSI (U+009B); any number of the characters [ ( ) # ; ?;
    optionally one to four digits followed by any number of groups made of a
    semicolon and up to four digits; one final character among 0-9, A-O, R,
    Z, c, f-n, q, r, y, =, > and <. *)
Definition ansiRegex : regex :=
  Cat (Class (fun c => N.eqb c 27 || N.eqb c 155))
 (Cat (Star (Class (one_of "[()#;?")))
 (Cat (opt (Cat (Rep digit 1 4)
                (Star (Cat (Class (N.eqb 59)) (Rep digit 0 4)))))
      (Class (fun c =>
                in_range 48 57 c || in_range 65 79 c     (* 0-9 A-O *)
                || one_of "RZc" c || in_range 102 110 c  (* R Z c f-n *)
                || one_of "qry=><" c)))).

(** [stripAnsi(str)], source lines 11-15. *)
Definition stripAnsi (str : jsstring) : jsstring := erase ansiRegex str.

(* ====================================================================== *)
(** ** JavaScript values *)
(* ====================================================================== *)

(** A [number]: the two infinities, NaN, or a finite value given by the
    rational it denotes (every finite binary64 value is a rational; the
    program only compares numbers and tests them for integrality, which is
    exact on the denoted rational). *)
Inductive JsNum :=
| NaN
| Infinity (negative : bool)
| Fin (q : Q).

Definition Q_ltb (a b : Q) : bool :=
  (Qnum a * Zpos (Qden b) <? Qnum b * Zpos (Qden a))%Z.
Definition Q_leb (a b : Q) : bool :=
  (Qnum a * Zpos (Qden b) <=? Qnum b * Zpos (Qden a))%Z.

(** [a < b]; every comparison with NaN is false. *)
Definition num_lt (a b : JsNum) : bool :=
  match a, b with
  | NaN, _ | _, NaN => false
  | Fin x, Fin y => Q_ltb x y
  | Infinity true, Infinity true => false
  | Infinity true, _ => true
  | Fin _, Infinity false => true
  | _, _ => false
  end.

(** [a <= b]. *)
Definition num_le (a b : JsNum) : bool :=
  match a, b with
  | NaN, _ | _, NaN => false
  | Fin x, Fin y => Q_leb x y
  | Infinity true, _ => true
  | _, Infinity false => true
  | _, _ => false
  end.

Definition num_gt (a b : JsNum) : bool := num_lt b a.
Definition num_ge (a b : JsNum) : bool := num_le b a.

(** [Number.isInteger]. *)
Definition isInteger (n : JsNum) : bool :=
  match n with
  | Fin q => (Qnum q mod Zpos (Qden q) =? 0)%Z
  | _ => false
  end.

Definition int (z : Z) : JsNum := Fin (inject_Z z).

Inductive JsVal :=
| JUndefined
| JNull
| JBool (b : bool)
| JNum (n : JsNum)
| JStr (s : jsstring)
| JArr (items : list JsVal)
| JObj (props : list (jsstring * JsVal)).

Inductive JsType := t_undefined | t_object | t_boolean | t_number | t_string.

Definition typeof (v : JsVal) : JsType :=
  match v with
  | JUndefined => t_undefined
  | JNull | JArr _ | JObj _ => t_object
  | JBool _ => t_boolean
  | JNum _ => t_number
  | JStr _ => t_string
  end.

Definition is_type (v : JsVal) (t : JsType) : bool :=
  match typeof v, t with
  | t_undefined, t_undefined | t_object, t_object | t_boolean, t_boolean
  | t_number, t_number | t_string, t_string => true
  | _, _ => false
  end.

Definition is_null (v : JsVal) : bool :=
  match v with JNull => true | _ => false end.

(** ToBoolean. *)
Definition num_truthy (n : JsNum) : bool :=
  match n with
  | NaN => false
  | Infinity _ => true
  | Fin q => negb (Qnum q =? 0)%Z
  end.

Definition str_truthy (s : jsstring) : bool :=
  match s with [] => false | _ => true end.

Definition truthy (v : JsVal) : bool :=
  match v with
  | JUndefined | JNull => false
  | JBool b => b
  | JNum n => num_truthy n
  | JStr s => str_truthy s
  | JArr _ | JObj _ => true
  end.

Fixpoint assoc {A : Type} (k : jsstring) (l : list (jsstring * A)) : option A :=
  match l with
  | [] => None
  | (k', v) :: l' => if str_eqb k k' then Some v else assoc k l'
  end.

(** [v.k] for a value that is neither [null] nor [undefined], and for the
    property names the program reads ([thought], [entity], [status], ...):
    none of them is defined on a prototype, so only an object's own
    properties can answer. *)
Definition field (v : JsVal) (k : string) : JsVal :=
  match v with
  | JObj props =>
      match assoc (lit k) props with
      | Some x => x
      | None => JUndefined
      end
  | _ => JUndefined
  end.

(** An object literal with ASCII property names. *)
Definition properties (props : list (string * JsVal))
  : list (jsstring * JsVal) :=
  map (fun kv => (lit (fst kv), snd kv)) props.
Definition object (props : list (string * JsVal)) : JsVal :=
  JObj (properties props).

Definition text (s : string) : JsVal := JStr (lit s).
Definition number (z : Z) : JsVal := JNum (int z).

(* ====================================================================== *)
(** ** The data model: [KnowledgeAssessment] and [ThoughtData] *)
(* ====================================================================== *)

Inductive Status := known | unknown | uncertain.

Definition Status_text (s : Status) : jsstring :=
  match s with
  | known => lit "known"
  | unknown => lit "unknown"
  | uncertain => lit "uncertain"
  end.

Record KnowledgeAssessment := {
  entity : jsstring;
  status : Status
}.

(** An optional field that is [undefined] is [None]. *)
Record ThoughtData := {
  thought : jsstring;
  thoughtNumber : JsNum;
  totalThoughts : JsNum;
  nextThoughtNeeded : bool;
  confidence_score : option JsNum;
  knowledge_assessment : option (list KnowledgeAssessment);
  isRevision : option bool;
  revisesThought : option JsNum;
  branchFromThought : option JsNum;
  branchId : option jsstring
}.

(** [validatedInput.totalThoughts = n]. *)
Definition set_totalThoughts (td : ThoughtData) (n : JsNum) : ThoughtData :=
  {| thought := thought td;
     thoughtNumber := thoughtNumber td;
     totalThoughts := n;
     nextThoughtNeeded := nextThoughtNeeded td;
     confidence_score := confidence_score td;
     knowledge_assessment := knowledge_assessment td;
     isRevision := isRevision td;
     revisesThought := revisesThought td;
     branchFromThought := branchFromThought td;
     branchId := branchId td |}.

(** Truthiness of an optional field. *)
Definition opt_truthy {A : Type} (t : A -> bool) (o : option A) : bool :=
  match o with
  | Some a => t a
  | None => false
  end.

(* ====================================================================== *)
(** ** What is thrown, what is written to the console *)
(* ====================================================================== *)

(** One constructor per [throw] of [validateThoughtData], plus the two
    TypeErrors the runtime raises in [processThought]'s [try] block. *)
Inductive Thrown :=
| Invalid_thought
| Invalid_thoughtNumber
| Invalid_totalThoughts
| Invalid_nextThoughtNeeded
| Invalid_confidence_score
| Invalid_knowledge_assessment
| Invalid_item_object (index : nat)
| Invalid_item_entity (index : nat)
| Invalid_item_status (index : nat)
| TypeError_read (of_null : bool) (property : string)
| TypeError_push_not_a_function.

Definition at_index (index : nat) : jsstring :=
  lit "Invalid item in knowledge_assessment at index "
  ++ digits (N.of_nat index).

(** [error.message].  The two TypeError texts are V8's. *)
Definition message (e : Thrown) : jsstring :=
  match e with
  | Invalid_thought =>
      lit "Invalid input: `thought` is required and must be a non-empty string."
  | Invalid_thoughtNumber =>
      lit "Invalid input: `thoughtNumber` is required and must be a positive integer."
  | Invalid_totalThoughts =>
      lit "Invalid input: `totalThoughts` is required and must be a positive integer."
  | Invalid_nextThoughtNeeded =>
      lit "Invalid input: `nextThoughtNeeded` is required and must be a boolean."
  | Invalid_confidence_score =>
      lit "Invalid input: `confidence_score` must be a number between 0.0 and 1.0."
  | Invalid_knowledge_assessment =>
      lit "Invalid input: `knowledge_assessment` must be an array."
  | Invalid_item_object i => at_index i ++ lit ": must be an object."
  | Invalid_item_entity i =>
      at_index i ++ lit ": missing or invalid 'entity' string."
  | Invalid_item_status i =>
      at_index i
      ++ lit ": 'status' must be 'known', 'unknown', or 'uncertain'."
  | TypeError_read of_null property =>
      lit "Cannot read properties of "
      ++ lit (if of_null then "null" else "undefined")
      ++ lit " (reading '" ++ lit property ++ lit "')"
  | TypeError_push_not_a_function =>
      lit "this.branches[validatedInput.branchId].push is not a function"
  end.

(** The calls to [console.warn] and [console.error], one constructor per
    call site, carrying what the message interpolates. *)
Inductive ConsoleCall :=
| warn_revision_without_revisesThought
| warn_branch_without_branchId
| warn_needsMoreThoughts_deprecated
| warn_totalThoughts_adjusted (thoughtNumber totalThoughts : JsNum)
| error_new_branch (branchId : jsstring) (branchFromThought : JsNum)
| error_formatted (formattedThought : jsstring)
| error_processing (errorMessage : jsstring).

(* ====================================================================== *)
(** ** The state of an instance and the monad of its methods *)
(* ====================================================================== *)

(** [branches] is a plain object used as a map: its own properties in
    creation order.  [console] collects the calls made so far. *)
Record World := {
  thoughtHistory : list ThoughtData;
  branches : list (jsstring * list ThoughtData);
  console : list ConsoleCall
}.

(** [new BetterThinkingToolLogic()]. *)
Definition fresh : World :=
  {| thoughtHistory := []; branches := []; console := [] |}.

Inductive Outcome (A : Type) :=
| Returned (a : A)
| Threw (e : Thrown).
Arguments Returned {A} a.
Arguments Threw {A} e.

(** A computation runs in a state and either returns or throws; either way
    the state it leaves is the one its effects produced. *)
Definition M (A : Type) := World -> Outcome A * World.

Definition ret {A} (a : A) : M A := fun w => (Returned a, w).
Definition throw {A} (e : Thrown) : M A := fun w => (Threw e, w).
Definition bind {A B} (m : M A) (k : A -> M B) : M B :=
  fun w =>
    match m w with
    | (Returned a, w') => k a w'
    | (Threw e, w') => (Threw e, w')
    end.
Definition try_catch {A} (body : M A) (handler : Thrown -> M A) : M A :=
  fun w =>
    match body w with
    | (Returned a, w') => (Returned a, w')
    | (Threw e, w') => handler e w'
    end.

Notation "x <- m ;; k" := (bind m (fun x => k))
  (at level 61, m at next level, right associativity).
Notation "m ;;; k" := (bind m (fun _ => k))
  (at level 61, right associativity).

Definition get_world : M World := fun w => (Returned w, w).
Definition when (c : bool) (m : M unit) : M unit := if c then m else ret tt.

Definition console_call (c : ConsoleCall) : M unit :=
  fun w =>
    (Returned tt,
     {| thoughtHistory := thoughtHistory w;
        branches := branches w;
        console := console w ++ [c] |}).

(** [this.thoughtHistory.push(td)]. *)
Definition history_push (td : ThoughtData) : M unit :=
  fun w =>
    (Returned tt,
     {| thoughtHistory := thoughtHistory w ++ [td];
        branches := branches w;
        console := console w |}).

(** The names [Object.prototype] defines: a plain object answers a read of
    any of them with an inherited function (for [__proto__], with the
    prototype itself) unless it has an own property of that name. *)
Definition Object_prototype_names : list jsstring :=
  map lit
    [ "constructor"; "__defineGetter__"; "__defineSetter__";
      "hasOwnProperty"; "__lookupGetter__"; "__lookupSetter__";
      "isPrototypeOf"; "propertyIsEnumerable"; "toString"; "valueOf";
      "__proto__"; "toLocaleString" ]%string.

Definition inherited (k : jsstring) : bool :=
  existsb (str_eqb k) Object_prototype_names.

(** What [this.branches[k]] evaluates to. *)
Inductive Slot :=
| own_array (steps : list ThoughtData)
| from_prototype
| undefined_slot.

Definition slot_truthy (s : Slot) : bool :=
  match s with
  | own_array _ | from_prototype => true
  | undefined_slot => false
  end.

Definition branches_get (k : jsstring) : M Slot :=
  fun w =>
    (Returned
       match assoc k (branches w) with
       | Some steps => own_array steps
       | None => if inherited k then from_prototype else undefined_slot
       end,
     w).

Fixpoint assoc_set {A : Type} (k : jsstring) (v : A)
         (l : list (jsstring * A)) : list (jsstring * A) :=
  match l with
  | [] => [(k, v)]
  | (k', v') :: l' =>
      if str_eqb k k' then (k', v) :: l' else (k', v') :: assoc_set k v l'
  end.

Definition set_branch (k : jsstring) (steps : list ThoughtData) : M unit :=
  fun w =>
    (Returned tt,
     {| thoughtHistory := thoughtHistory w;
        branches := assoc_set k steps (branches w);
        console := console w |}).

(** [this.branches[k].push(td)]: an own array grows in place; what a
    prototype supplies has no [push], and calling it is a TypeError. *)
Definition branch_push (k : jsstring) (td : ThoughtData) : M unit :=
  slot <- branches_get k ;;
  match slot with
  | own_array steps => set_branch k (steps ++ [td])
  | from_prototype => throw TypeError_push_not_a_function
  | undefined_slot => throw (TypeError_read false "push")
  end.

(** *** [Object.keys]: array-index keys in ascending numeric order, then the
    other keys in creation order *)

Definition is_digit (c : code_unit) : bool := in_range 48 57 c.

Definition digits_value (k : jsstring) : N :=
  fold_left (fun acc c => (acc * 10 + (c - 48))%N) k 0%N.

(** The canonical decimal form of an integer in [0, 2^32 - 2]. *)
Definition array_index (k : jsstring) : option N :=
  match k with
  | [] => None
  | c :: rest =>
      if forallb is_digit k
         && (negb (N.eqb c 48) || match rest with [] => true | _ => false end)
         && N.leb (digits_value k) 4294967294
      then Some (digits_value k)
      else None
  end.

Fixpoint insert_index (i : N) (k : jsstring) (l : list (N * jsstring))
  : list (N * jsstring) :=
  match l with
  | [] => [(i, k)]
  | (j, k') :: l' =>
      if N.leb i j then (i, k) :: l else (j, k') :: insert_index i k l'
  end.

Fixpoint index_keys (ks : list jsstring) : list (N * jsstring) :=
  match ks with
  | [] => []
  | k :: ks' =>
      match array_index k with
      | Some i => insert_index i k (index_keys ks')
      | None => index_keys ks'
      end
  end.

Definition Object_keys {A : Type} (o : list (jsstring * A)) : list jsstring :=
  let ks := map fst o in
  map snd (index_keys ks)
  ++ filter (fun k => match array_index k with Some _ => false | None => true end) ks.

(* ====================================================================== *)
(** ** What the program takes from its platform *)
(* ====================================================================== *)

Inductive Color := blue | yellow | green | cyan | magenta | red.

(** [chalk.<color>(s)] depends on the colour support chalk detects when the
    process starts, and the digits [String(x)] prints depend on the binary64
    value of [x]; both are parameters of the model. *)
Class Platform := {
  chalk : Color -> jsstring -> jsstring;
  Number_toString : JsNum -> jsstring
}.

(** A platform to run examples on: chalk at colour level 0 (what it detects
    when the output is not a terminal, as for a server started by its client
    over pipes) returns its argument; [String(x)] is exact for NaN, the
    infinities and the integers of magnitude below 10^21, the only numbers
    the examples print.  Other finite values are shown as a fraction. *)
Definition String_of_number (x : JsNum) : jsstring :=
  match x with
  | NaN => lit "NaN"
  | Infinity negative => lit (if negative then "-Infinity" else "Infinity")
  | Fin q =>
      let sign := if (Qnum q <? 0)%Z then lit "-" else [] in
      if isInteger x
      then sign ++ digits (Z.to_N (Z.abs (Qnum q / Zpos (Qden q))))
      else sign ++ digits (Z.to_N (Z.abs (Qnum q)))
                ++ lit "/" ++ digits (Npos (Qden q))
  end.

Definition plain_platform : Platform :=
  {| chalk := fun _ s => s; Number_toString := String_of_number |}.

Section Logic.
Context {platform : Platform}.

(** [x.toFixed(2)]: below 10^21 in magnitude, the integer [n] nearest to
    [100 x] (the larger one on a tie) printed with a point before its last
    two digits; otherwise [String(x)]. *)
Definition toFixed2 (x : JsNum) : jsstring :=
  match x with
  | Fin q =>
      if Q_ltb (Qabs q) (inject_Z (10 ^ 21))
      then
        let s := if Q_ltb q (inject_Z 0) then lit "-" else [] in
        let n := Z.to_N (Qfloor (Qabs q * inject_Z 100 + (1 # 2))%Q) in
        let m := digits n in
        let m := if Nat.leb (List.length m) 2
                 then repeat 48%N (3 - List.length m) ++ m else m in
        let k := List.length m in
        s ++ firstn (k - 2) m ++ lit "." ++ skipn (k - 2) m
      else Number_toString x
  | _ => Number_toString x
  end.

(* ---------------------------------------------------------------------- *)
(** *** [validateThoughtData], source lines 76-153 *)
(* ---------------------------------------------------------------------- *)

(** The first property read; it is the one that throws when [input] is
    [null] or [undefined]. *)
Definition read_first (input : JsVal) (k : string) : M JsVal :=
  match input with
  | JUndefined => throw (TypeError_read false k)
  | JNull => throw (TypeError_read true k)
  | _ => ret (field input k)
  end.

(** [typeof v === 'number' && Number.isInteger(v) && v >= 1]. *)
Definition positive_integer (v : JsVal) : option JsNum :=
  match v with
  | JNum n => if isInteger n && num_ge n (int 1) then Some n else None
  | _ => None
  end.

(** [['known', 'unknown', 'uncertain'].includes(v)]. *)
Definition status_of (v : JsVal) : option Status :=
  match v with
  | JStr s =>
      if str_eqb s (lit "known") then Some known
      else if str_eqb s (lit "unknown") then Some unknown
      else if str_eqb s (lit "uncertain") then Some uncertain
      else None
  | _ => None
  end.

(** The callback given to [map], source lines 107-118. *)
Definition check_item (item : JsVal) (index : nat) : M KnowledgeAssessment :=
  if negb (is_type item t_object) || is_null item
  then throw (Invalid_item_object index)
  else
    match field item "entity" with
    | JStr e =>
        if negb (str_truthy e) then throw (Invalid_item_entity index)
        else
          match status_of (field item "status") with
          | Some st => ret {| entity := e; status := st |}
          | None => throw (Invalid_item_status index)
          end
    | _ => throw (Invalid_item_entity index)
    end.

(** [items.map(callback)] from position [index] on. *)
Fixpoint map_items (items : list JsVal) (index : nat)
  : M (list KnowledgeAssessment) :=
  match items with
  | [] => ret []
  | item :: rest =>
      ka <- check_item item index ;;
      kas <- map_items rest (S index) ;;
      ret (ka :: kas)
  end.

(** The four required-field checks, source lines 80-91. *)
Definition required_thought (data : JsVal) : M jsstring :=
  data_thought <- read_first data "thought" ;;
  match data_thought with
  | JStr s =>
      if negb (truthy data_thought) then throw Invalid_thought else ret s
  | _ => throw Invalid_thought
  end.

Definition required_positive_integer (data : JsVal) (k : string)
           (e : Thrown) : M JsNum :=
  match field data k with
  | JNum n =>
      if negb (isInteger n) || num_lt n (int 1) then throw e else ret n
  | _ => throw e
  end.

Definition required_boolean (data : JsVal) (k : string) (e : Thrown)
  : M bool :=
  match field data k with
  | JBool b => ret b
  | _ => throw e
  end.

(** Source lines 94-100. *)
Definition optional_confidence_score (data : JsVal) : M (option JsNum) :=
  match field data "confidence_score" with
  | JUndefined => ret None
  | JNum c =>
      if num_lt c (int 0) || num_gt c (int 1)
      then throw Invalid_confidence_score else ret (Some c)
  | _ => throw Invalid_confidence_score
  end.

(** Source lines 102-119. *)
Definition optional_knowledge_assessment (data : JsVal)
  : M (option (list KnowledgeAssessment)) :=
  match field data "knowledge_assessment" with
  | JUndefined => ret None
  | JArr items => kas <- map_items items 0 ;; ret (Some kas)
  | _ => throw Invalid_knowledge_assessment
  end.

Definition boolean_or_undefined (v : JsVal) : option bool :=
  match v with JBool b => Some b | _ => None end.
Definition string_or_undefined (v : JsVal) : option jsstring :=
  match v with JStr s => Some s | _ => None end.
Definition is_undefined {A : Type} (o : option A) : bool :=
  match o with None => true | Some _ => false end.

(** The three advisory warnings, source lines 128-136. *)
Definition warnings (isRevision_ : option bool)
           (revisesThought_ branchFromThought_ : option JsNum)
           (branchId_ : option jsstring) (needsMoreThoughts_ : option bool)
  : M unit :=
  when (opt_truthy (fun b : bool => b) isRevision_
        && is_undefined revisesThought_)
       (console_call warn_revision_without_revisesThought) ;;;
  when (opt_truthy num_truthy branchFromThought_ && is_undefined branchId_)
       (console_call warn_branch_without_branchId) ;;;
  when (negb (is_undefined needsMoreThoughts_))
       (console_call warn_needsMoreThoughts_deprecated).

Definition validateThoughtData (input : JsVal) : M ThoughtData :=
  let data := input in
  thought_ <- required_thought data ;;
  thoughtNumber_ <-
    required_positive_integer data "thoughtNumber" Invalid_thoughtNumber ;;
  totalThoughts_ <-
    required_positive_integer data "totalThoughts" Invalid_totalThoughts ;;
  nextThoughtNeeded_ <-
    required_boolean data "nextThoughtNeeded" Invalid_nextThoughtNeeded ;;
  confidence_score_ <- optional_confidence_score data ;;
  knowledge_assessment_ <- optional_knowledge_assessment data ;;
  let isRevision_ := boolean_or_undefined (field data "isRevision") in
  let revisesThought_ := positive_integer (field data "revisesThought") in
  let branchFromThought_ :=
    positive_integer (field data "branchFromThought") in
  let branchId_ := string_or_undefined (field data "branchId") in
  let needsMoreThoughts_ :=
    boolean_or_undefined (field data "needsMoreThoughts") in
  warnings isRevision_ revisesThought_ branchFromThought_ branchId_
           needsMoreThoughts_ ;;;
  (* needsMoreThoughts is left out of the returned object *)
  ret {| thought := thought_;
         thoughtNumber := thoughtNumber_;
         totalThoughts := totalThoughts_;
         nextThoughtNeeded := nextThoughtNeeded_;
         confidence_score := confidence_score_;
         knowledge_assessment := knowledge_assessment_;
         isRevision := isRevision_;
         revisesThought := revisesThought_;
         branchFromThought := branchFromThought_;
         branchId := branchId_ |}.

(* ---------------------------------------------------------------------- *)
(** *** [formatThought], source lines 160-212 *)
(* ---------------------------------------------------------------------- *)

(** The string literals of the renderer, code unit by code unit as the
    source file holds them. *)
Definition Thought_label : jsstring :=
  [0xF8FF; 0xFC; 0xED; 0x2260]%N ++ lit " Thought".
Definition Revision_label : jsstring :=
  [0xF8FF; 0xFC; 0xEE; 0xD1]%N ++ lit " Revision".
Definition Branch_label : jsstring :=
  [0xF8FF; 0xFC; 0xE5; 0xF8]%N ++ lit " Branch".
Definition border_unit : jsstring := [0x201A; 0xEE; 0xC4]%N.
Definition separator_unit : jsstring := [0xAC; 0x2211]%N.
Definition top_left : jsstring := [0x201A; 0xEE; 0xE5]%N.
Definition top_right : jsstring := [0x201A; 0xEE; 0xEA]%N.
Definition side : jsstring := [0x201A; 0xEE; 0xC7]%N.
Definition tee_left : jsstring := [0x201A; 0xEE; 0xFA]%N.
Definition tee_right : jsstring := [0x201A; 0xEE; 0xA7]%N.
Definition bottom_left : jsstring := [0x201A; 0xEE; 0xEE]%N.
Definition bottom_right : jsstring := [0x201A; 0xEE; 0xF2]%N.

Inductive Kind := Thought | Revision | Branch.

(** The [if] / [else if] of source lines 166-172. *)
Definition kind_of (td : ThoughtData) : Kind :=
  if opt_truthy (fun b : bool => b) (isRevision td)
     && opt_truthy num_truthy (revisesThought td)
  then Revision
  else if opt_truthy num_truthy (branchFromThought td)
          && opt_truthy str_truthy (branchId td)
  then Branch
  else Thought.

(** A template placeholder holding an optional field. *)
Definition show_num (o : option JsNum) : jsstring :=
  match o with
  | Some n => Number_toString n
  | None => lit "undefined"
  end.
Definition show_str (o : option jsstring) : jsstring :=
  match o with
  | Some s => s
  | None => lit "undefined"
  end.

Definition prefix_of (k : Kind) : jsstring :=
  match k with
  | Thought => chalk blue Thought_label
  | Revision => chalk yellow Revision_label
  | Branch => chalk green Branch_label
  end.

Definition context_of (td : ThoughtData) : jsstring :=
  match kind_of td with
  | Thought => []
  | Revision =>
      lit " (revising thought " ++ show_num (revisesThought td) ++ lit ")"
  | Branch =>
      lit " (from thought " ++ show_num (branchFromThought td)
      ++ lit ", ID: " ++ show_str (branchId td) ++ lit ")"
  end.

Definition header_of (td : ThoughtData) : jsstring :=
  prefix_of (kind_of td) ++ lit " " ++ Number_toString (thoughtNumber td)
  ++ lit "/" ++ Number_toString (totalThoughts td) ++ context_of td.

Definition confidenceLine (td : ThoughtData) : jsstring :=
  match confidence_score td with
  | Some c => lit "Confidence: " ++ chalk cyan (toFixed2 c)
  | None => []
  end.

Definition knowledgeLines (td : ThoughtData) : jsstring :=
  match knowledge_assessment td with
  | Some (ka :: kas) =>
      lit "Knowledge Assessment:" ++ LF ::
      join_lines
        (map (fun ka => lit "  - " ++ chalk yellow (entity ka) ++ lit ": "
                        ++ chalk magenta (Status_text (status ka)))
             (ka :: kas))
  | _ => []
  end.

(** [[thought, confidenceLine, knowledgeLines].filter(Boolean)]. *)
Definition coreContentLines (td : ThoughtData) : list jsstring :=
  filter str_truthy [thought td; confidenceLine td; knowledgeLines td].

Definition allLinesForWidth (td : ThoughtData) : list jsstring :=
  header_of td :: flat_map split_lines (coreContentLines td).

Definition maxWidth (td : ThoughtData) : nat :=
  max_list (map (fun l => List.length (stripAnsi l)) (allLinesForWidth td)).

Definition border (width : nat) : jsstring := str_repeat border_unit (width + 2).
Definition separator (width : nat) : jsstring :=
  tee_left ++ str_repeat separator_unit (width + 2) ++ tee_right.

Definition row (width : nat) (text : jsstring) : jsstring :=
  LF :: side ++ lit " " ++ padEnd text width ++ lit " " ++ side.

(** The [forEach] over [coreContentLines]; [previous] is the element before
    the current one, absent at index 0. *)
Fixpoint content_rows (width : nat) (previous : option jsstring)
         (lines : list jsstring) : jsstring :=
  match lines with
  | [] => []
  | line :: rest =>
      (match previous with
       | Some p => if str_truthy line && str_truthy p
                   then LF :: separator width else []
       | None => []
       end)
      ++ flat_map (row width) (split_lines line)
      ++ content_rows width (Some line) rest
  end.

Definition formatThought (td : ThoughtData) : jsstring :=
  let w := maxWidth td in
  LF :: top_left ++ border w ++ top_right
  ++ row w (header_of td)
  ++ (match coreContentLines td with
      | [] => []
      | lines => LF :: tee_left ++ border w ++ tee_right
                 ++ content_rows w None lines
      end)
  ++ LF :: bottom_left ++ border w ++ bottom_right.

(* ---------------------------------------------------------------------- *)
(** *** [processThought], source lines 221-284 *)
(* ---------------------------------------------------------------------- *)

Record SuccessPayload := {
  thought_number_processed : JsNum;
  current_total_thoughts : JsNum;
  next_thought_needed : bool;
  active_branches : list jsstring;
  total_history_length : nat
}.

(** The object that [JSON.stringify] turns into the text of the reply. *)
Inductive Payload :=
| success (p : SuccessPayload)
| failed (error : jsstring).

(** The returned object; [isError] is absent from a success. *)
Record ToolResult := {
  content : Payload;
  isError : option bool
}.

(** Step 2 of [processThought], source lines 227-230: the assignment to
    [validatedInput.totalThoughts] happens before the object is stored
    anywhere, so the one object that history and branch share is the
    adjusted one. *)
Definition adjust_totalThoughts (validatedInput : ThoughtData)
  : M ThoughtData :=
  if num_gt (thoughtNumber validatedInput) (totalThoughts validatedInput)
  then
    console_call (warn_totalThoughts_adjusted
                    (thoughtNumber validatedInput)
                    (totalThoughts validatedInput)) ;;;
    ret (set_totalThoughts validatedInput (thoughtNumber validatedInput))
  else ret validatedInput.

(** Step 4, source lines 236-242. *)
Definition track_branch (validatedInput : ThoughtData) : M unit :=
  match branchFromThought validatedInput, branchId validatedInput with
  | Some from, Some id =>
      if num_truthy from && str_truthy id
      then
        slot <- branches_get id ;;
        when (negb (slot_truthy slot))
             (set_branch id [] ;;;
              console_call (error_new_branch id from)) ;;;
        branch_push id validatedInput
      else ret tt
  | _, _ => ret tt
  end.

Definition processThought (input : JsVal) : M ToolResult :=
  try_catch
    ((* 1 *)
     validatedInput <- validateThoughtData input ;;
     (* 2 *)
     validatedInput <- adjust_totalThoughts validatedInput ;;
     (* 3 *)
     history_push validatedInput ;;;
     (* 4 *)
     track_branch validatedInput ;;;
     (* 5 *)
     console_call (error_formatted (formatThought validatedInput)) ;;;
     (* 6 *)
     this <- get_world ;;
     ret {| content :=
              success
                {| thought_number_processed := thoughtNumber validatedInput;
                   current_total_thoughts := totalThoughts validatedInput;
                   next_thought_needed := nextThoughtNeeded validatedInput;
                   active_branches := Object_keys (branches this);
                   total_history_length := List.length (thoughtHistory this) |};
            isError := None |})
    (fun error =>
       (* 7 *)
       let errorMessage := message error in
       console_call (error_processing errorMessage) ;;;
       (* 8 *)
       ret {| content := failed errorMessage; isError := Some true |}).

(** The state after a sequence of calls. *)
Definition run (inputs : list JsVal) (w : World) : World :=
  fold_left (fun w input => snd (processThought input w)) inputs w.

End Logic.

(* ====================================================================== *)
(** ** Vocabulary of the statements *)
(* ====================================================================== *)

(** The state [w] after the calls [l] were written to the console. *)
Definition w_log (w : World) (l : list ConsoleCall) : World :=
  {| thoughtHistory := thoughtHistory w;
     branches := branches w;
     console := console w ++ l |}.

(** What a computation that does not read the state returns or throws. *)
Definition result_of {A : Type} (m : M A) : Outcome A := fst (m fresh).

Definition passes {A : Type} (m : M A) : bool :=
  match result_of m with
  | Returned _ => true
  | Threw _ => false
  end.

(** The reply of a failed call. *)
Definition failure (e : Thrown) : ToolResult :=
  {| content := failed (message e); isError := Some true |}.

Definition is_success (r : ToolResult) : bool :=
  match content r, isError r with
  | success _, None => true
  | _, _ => false
  end.

Definition is_failure (r : ToolResult) : bool :=
  match content r, isError r with
  | failed _, Some true => true
  | _, _ => false
  end.

(** An element of [knowledge_assessment] and the entry made from it. *)
Definition item_accepts (item : JsVal) (ka : KnowledgeAssessment) : Prop :=
  field item "entity" = JStr (entity ka)
  /\ entity ka <> []
  /\ status_of (field item "status") = Some (status ka).

(** [accepts input td]: every field of the Step [td] holds the value the
    input gives it, and the input meets each check of the validator. *)
Record accepts (input : JsVal) (td : ThoughtData) : Prop := {
  acc_thought :
    field input "thought" = JStr (thought td) /\ thought td <> [];
  acc_thoughtNumber :
    field input "thoughtNumber" = JNum (thoughtNumber td)
    /\ isInteger (thoughtNumber td) = true
    /\ num_lt (thoughtNumber td) (int 1) = false;
  acc_totalThoughts :
    field input "totalThoughts" = JNum (totalThoughts td)
    /\ isInteger (totalThoughts td) = true
    /\ num_lt (totalThoughts td) (int 1) = false;
  acc_nextThoughtNeeded :
    field input "nextThoughtNeeded" = JBool (nextThoughtNeeded td);
  acc_confidence_score :
    match field input "confidence_score" with
    | JUndefined => confidence_score td = None
    | JNum c =>
        confidence_score td = Some c
        /\ num_lt c (int 0) = false /\ num_gt c (int 1) = false
    | _ => False
    end;
  acc_knowledge_assessment :
    match field input "knowledge_assessment" with
    | JUndefined => knowledge_assessment td = None
    | JArr items =>
        exists kas, knowledge_assessment td = Some kas
                    /\ Forall2 item_accepts items kas
    | _ => False
    end;
  acc_isRevision :
    isRevision td = boolean_or_undefined (field input "isRevision");
  acc_revisesThought :
    revisesThought td = positive_integer (field input "revisesThought");
  acc_branchFromThought :
    branchFromThought td = positive_integer (field input "branchFromThought");
  acc_branchId :
    branchId td = string_or_undefined (field input "branchId")
}.

(** The warnings [validateThoughtData] writes for an accepted input. *)
Definition warning_list (isRevision_ : option bool)
           (revisesThought_ branchFromThought_ : option JsNum)
           (branchId_ : option jsstring) (needsMoreThoughts_ : option bool)
  : list ConsoleCall :=
  (if opt_truthy (fun b : bool => b) isRevision_
      && is_undefined revisesThought_
   then [warn_revision_without_revisesThought] else [])
  ++ (if opt_truthy num_truthy branchFromThought_ && is_undefined branchId_
      then [warn_branch_without_branchId] else [])
  ++ (if negb (is_undefined needsMoreThoughts_)
      then [warn_needsMoreThoughts_deprecated] else []).

Definition advisory (input : JsVal) (td : ThoughtData) : list ConsoleCall :=
  warning_list (isRevision td) (revisesThought td) (branchFromThought td)
               (branchId td)
               (boolean_or_undefined (field input "needsMoreThoughts")).

(** A computation is stateless when it returns the same outcome in every
    state and leaves the state as it found it. *)
Definition stateless {A : Type} (m : M A) : Prop :=
  forall w, m w = (result_of m, w).




(** [totalThoughts >= thoughtNumber]. *)
Definition consistent (td : ThoughtData) : bool :=
  num_ge (totalThoughts td) (thoughtNumber td).

(** The Step as [processThought] stores it. *)
Definition adjusted (td : ThoughtData) : ThoughtData :=
  if num_gt (thoughtNumber td) (totalThoughts td)
  then set_totalThoughts td (thoughtNumber td)
  else td.

Definition with_thought (td : ThoughtData) (t : jsstring) : ThoughtData :=
  {| thought := t;
     thoughtNumber := thoughtNumber td;
     totalThoughts := totalThoughts td;
     nextThoughtNeeded := nextThoughtNeeded td;
     confidence_score := confidence_score td;
     knowledge_assessment := knowledge_assessment td;
     isRevision := isRevision td;
     revisesThought := revisesThought td;
     branchFromThought := branchFromThought td;
     branchId := branchId td |}.

(** The warning of step 2. *)
Definition adjustment (td : ThoughtData) : list ConsoleCall :=
  if num_gt (thoughtNumber td) (totalThoughts td)
  then [warn_totalThoughts_adjusted (thoughtNumber td) (totalThoughts td)]
  else [].

(** The state after steps 1 to 3 of a call whose input was accepted as
    [td]. *)
Definition pushed (input : JsVal) (td : ThoughtData) (w : World) : World :=
  {| thoughtHistory := thoughtHistory w ++ [adjusted td];
     branches := branches w;
     console := console w ++ advisory input td ++ adjustment td |}.

(** The branch a Step is filed under: both fields must be truthy. *)
Definition branch_key (td : ThoughtData) : option (jsstring * JsNum) :=
  match branchFromThought td, branchId td with
  | Some from, Some id =>
      if num_truthy from && str_truthy id then Some (id, from) else None
  | _, _ => None
  end.

(** The reply of a successful call that leaves the state [this]. *)
Definition acknowledgement (td : ThoughtData) (this : World) : ToolResult :=
  {| content :=
       success
         {| thought_number_processed := thoughtNumber td;
            current_total_thoughts := totalThoughts td;
            next_thought_needed := nextThoughtNeeded td;
            active_branches := Object_keys (branches this);
            total_history_length := List.length (thoughtHistory this) |};
     isError := None |}.

(** The steps recorded under a branch identifier; none when there is no such
    branch. *)
Definition branch_steps (w : World) (id : jsstring) : list ThoughtData :=
  match assoc id (branches w) with
  | Some steps => steps
  | None => []
  end.

(** *** Regular expressions whose matches stay on one line *)

(** Every match of [r] takes at least one code unit. *)
Fixpoint consuming (r : regex) : bool :=
  match r with
  | Class _ => true
  | Cat r1 r2 => consuming r1 || consuming r2
  | Rep r' lo _ => consuming r' && negb (Nat.eqb lo 0)
  | Star _ => false
  end.

(** No class admits a line feed, and what a star repeats is consuming. *)
Fixpoint line_local (r : regex) : bool :=
  match r with
  | Class p => negb (p LF)
  | Cat r1 r2 => line_local r1 && line_local r2
  | Rep r' _ _ => line_local r'
  | Star r' => line_local r' && consuming r'
  end.

(** [rem] is what is left of [s] after a prefix. *)
Definition suffix_of (s rem : jsstring) : Prop := exists pre, s = pre ++ rem.

(** Put the rest of the text, [t], back after a remainder of its first
    line. *)
Definition rejoin (t rem : jsstring) : jsstring := rem ++ LF :: t.

(** The width of a text as displayed: the longest line of the text without
    its control sequences. *)
Definition visible_width (t : jsstring) : nat :=
  max_list (map (@List.length code_unit) (split_lines (stripAnsi t))).

(** *** Inputs of the examples *)

Definition required_fields (n total : Z) : list (string * JsVal) :=
  [ ("thought", text "Dallas is in Texas");
    ("thoughtNumber", number n);
    ("totalThoughts", number total);
    ("nextThoughtNeeded", JBool true) ]%string.

Definition with_fields (extra : list (string * JsVal)) : JsVal :=
  object (required_fields 1 3 ++ extra).

(** The properties of the input that the validator copies into the Step. *)
Definition step_fields : list string :=
  [ "thought"; "thoughtNumber"; "totalThoughts"; "nextThoughtNeeded";
    "confidence_score"; "knowledge_assessment"; "isRevision";
    "revisesThought"; "branchFromThought"; "branchId" ]%string.

(** [{...props, k: v}]: the object [props] with property [k] set to [v]. *)
Definition override (k : string) (v : JsVal) (props : list (jsstring * JsVal))
  : JsVal :=
  JObj ((lit k, v) :: props).

Definition with_branchId (td : ThoughtData) (o : option jsstring)
  : ThoughtData :=
  {| thought := thought td;
     thoughtNumber := thoughtNumber td;
     totalThoughts := totalThoughts td;
     nextThoughtNeeded := nextThoughtNeeded td;
     confidence_score := confidence_score td;
     knowledge_assessment := knowledge_assessment td;
     isRevision := isRevision td;
     revisesThought := revisesThought td;
     branchFromThought := branchFromThought td;
     branchId := o |}.

(** The Step the validator makes of [object (required_fields 5 3)]. *)
Definition step_5_of_3 : ThoughtData :=
  {| thought := lit "Dallas is in Texas";
     thoughtNumber := int 5;
     totalThoughts := int 3;
     nextThoughtNeeded := true;
     confidence_score := None;
     knowledge_assessment := None;
     isRevision := None;
     revisesThought := None;
     branchFromThought := None;
     branchId := None |}.

(** A line, plain and between the sequences for red and for the default
    colour. *)
Definition hello : jsstring := lit "hello from a line wider than the header".
Definition red_hello : jsstring :=
  27%N :: lit "[31m" ++ hello ++ 27%N :: lit "[39m".



Definition branch_input (from : Z) (id : string) : JsVal :=
  with_fields [ ("branchFromThought", number from); ("branchId", text id) ]%string.

(* ====================================================================== *)
(** ** The server of [index.ts]: the tool's input schema and the handler of
       tool calls *)
(* ====================================================================== *)

(** *** [inputSchema], source lines 55-82 of [index.ts], read as JSON Schema *)










(** *** The handler of [CallToolRequestSchema], source lines 112-125 *)

(** [request.params]: [arguments] is [undefined] when the client sends
    none. *)
Record CallToolRequest := {
  name : jsstring;
  arguments : JsVal
}.

(** The name under which the tool is declared, source line 27. *)
Definition better_thinking : jsstring := lit "better_thinking".

(** What the handler resolves to: the reply of [processThought] as it is, or
    the object built for a tool that is not known, whose text is not JSON. *)
Inductive CallToolReply :=
| reply_of_tool (r : ToolResult)
| reply_unknown_tool (text : jsstring).

(** The state of the process: the one instance [toolLogic], whose [console]
    holds the calls the class makes, and the handler's own [console.error]
    calls, each with the number of calls already on the console of
    [toolLogic] when it was made and the tool name it reports. *)
Record Server := {
  toolLogic : World;
  unknown_tool_errors : list (nat * jsstring)
}.

(** The process after start-up. *)
Definition started : Server :=
  {| toolLogic := fresh; unknown_tool_errors := [] |}.

Section Handler.
Context {platform : Platform}.

Definition call_tool_handler (request : CallToolRequest) (s : Server)
  : Outcome CallToolReply * Server :=
  if str_eqb (name request) better_thinking
  then
    match processThought (arguments request) (toolLogic s) with
    | (Returned r, this) =>
        (Returned (reply_of_tool r),
         {| toolLogic := this;
            unknown_tool_errors := unknown_tool_errors s |})
    | (Threw e, this) =>
        (Threw e,
         {| toolLogic := this;
            unknown_tool_errors := unknown_tool_errors s |})
    end
  else
    (Returned (reply_unknown_tool (lit "Unknown tool: " ++ name request)),
     {| toolLogic := toolLogic s;
        unknown_tool_errors :=
          unknown_tool_errors s
          ++ [(List.length (console (toolLogic s)), name request)] |}).

(** The process after a sequence of tool calls, handled one at a time. *)
Definition serve (requests : list CallToolRequest) (s : Server) : Server :=
  fold_left (fun s request => snd (call_tool_handler request s)) requests s.

End Handler.

(* ====================================================================== *)
(** ** Further vocabulary *)
(* ====================================================================== *)

(** The Step a call with this input adds to the history, if any. *)
Definition step_of (input : JsVal) : list ThoughtData :=
  match result_of (validateThoughtData input) with
  | Returned td => [adjusted td]
  | Threw _ => []
  end.

(** The Step is filed under the branch [id]. *)
Definition filed_under (id : jsstring) (td : ThoughtData) : bool :=
  match branch_key td with
  | Some (id', _) => str_eqb id' id
  | None => false
  end.

(** The branch [id] as the history determines it: the Steps filed under it,
    in order; no branch for a name inherited from the object prototype or
    when no Step is filed under it. *)
Definition branch_from_history (id : jsstring) (history : list ThoughtData)
  : option (list ThoughtData) :=
  if inherited id then None
  else match filter (filed_under id) history with
       | [] => None
       | steps => Some steps
       end.

(** Neither ESC nor CSI occurs in the text. *)
Definition without_introducer (s : jsstring) : Prop :=
  forall c, In c s -> c <> 27%N /\ c <> 155%N.

(** The parameter of the SGR sequence chalk opens each basic colour with;
    all of them are closed by 39. *)
Definition sgr (c : Color) : jsstring :=
  match c with
  | blue => lit "34"
  | yellow => lit "33"
  | green => lit "32"
  | cyan => lit "36"
  | magenta => lit "35"
  | red => lit "31"
  end.

(** [chalk.<color>(s)] at colour level 1, for a text without escape
    characters and line feeds. *)
Definition chalk_basic (c : Color) (s : jsstring) : jsstring :=
  27%N :: lit "[" ++ sgr c ++ lit "m" ++ s ++ 27%N :: lit "[39m".

(** The error an input that is not an object is answered with. *)
Definition error_for_non_object (input : JsVal) : Thrown :=
  match input with
  | JUndefined => TypeError_read false "thought"
  | JNull => TypeError_read true "thought"
  | _ => Invalid_thought
  end.

(** A request for the tool, and one for a tool the server does not have. *)
Definition tool_request (input : JsVal) : CallToolRequest :=
  {| name := better_thinking; arguments := input |}.
Definition other_request : CallToolRequest :=
  {| name := lit "sequential_thinking"; arguments := JUndefined |}.

(** The value is a string that is not empty. *)
Definition nonempty_string (v : JsVal) : bool :=
  match v with
  | JStr (_ :: _) => true
  | _ => false
  end.

(** The value is absent, or a number that is neither below 0 nor above 1. *)
Definition confidence_let_through (v : JsVal) : bool :=
  match v with
  | JUndefined => true
  | JNum c => negb (num_lt c (int 0)) && negb (num_gt c (int 1))
  | _ => false
  end.

(** An input with one property more than the example's, and the example. *)
Definition with_unknown_property : list (jsstring * JsVal) :=
  (lit "mood", text "curious") :: properties (required_fields 5 3).


(** [Number.isInteger(n) && n >= 1]. *)
Definition positive_number (n : JsNum) : bool := isInteger n && num_ge n (int 1).

(** What the data model asks of a stored Step. *)
Definition well_formed (td : ThoughtData) : Prop :=
  thought td <> []
  /\ positive_number (thoughtNumber td) = true
  /\ positive_number (totalThoughts td) = true
  /\ num_ge (totalThoughts td) (thoughtNumber td) = true
  /\ (forall c, confidence_score td = Some c ->
                num_lt c (int 0) = false /\ num_gt c (int 1) = false)
  /\ (forall kas ka, knowledge_assessment td = Some kas -> In ka kas ->
                     entity ka <> [])
  /\ (forall n, revisesThought td = Some n -> positive_number n = true)
  /\ (forall n, branchFromThought td = Some n -> positive_number n = true).

(** *** Values that arrive as JSON *)

(** A value that [JSON.parse] can produce: JSON text has no way to write
    [undefined] or NaN (a literal too large for a double, such as 1e999, is
    read as Infinity).  The arguments of a tool call arrive as JSON. *)
Fixpoint from_JSON (v : JsVal) : bool :=
  match v with
  | JUndefined => false
  | JNum NaN => false
  | JArr items => forallb from_JSON items
  | JObj props => forallb (fun p => from_JSON (snd p)) props
  | _ => true
  end.

(** The value is a number from 0 to 1, ends included. *)
Definition within_0_1 (v : JsVal) : bool :=
  match v with
  | JNum c => num_le (int 0) c && num_le c (int 1)
  | _ => false
  end.

(** The checks of the four required fields all pass. *)
Definition reaches_confidence_score (input : JsVal) : bool :=
  passes (required_thought input)
  && passes (required_positive_integer input "thoughtNumber"
               Invalid_thoughtNumber)
  && passes (required_positive_integer input "totalThoughts"
               Invalid_totalThoughts)
  && passes (required_boolean input "nextThoughtNeeded"
               Invalid_nextThoughtNeeded).

(** *** Frames on the console *)

(** A short thought, plain and between the sequences for red and for the
    default colour, and the input that carries it. *)
Definition plain_hi : jsstring := lit "hi".
Definition red_hi : jsstring :=
  27%N :: lit "[31m" ++ plain_hi ++ 27%N :: lit "[39m".

Definition input_with_thought (t : jsstring) : JsVal :=
  JObj ((lit "thought", JStr t)
        :: properties [ ("thoughtNumber", number 1);
                        ("totalThoughts", number 3);
                        ("nextThoughtNeeded", JBool true) ]%string).

(** The frames written to the console so far. *)
Definition frames (w : World) : list jsstring :=
  flat_map (fun call => match call with
                        | error_formatted formatted => [formatted]
                        | _ => []
                        end)
           (console w).

(** The width of each line of a frame as a terminal shows it: the number of
    code units that are left once the control sequences are removed. *)
Definition displayed_widths (formatted : jsstring) : list nat :=
  map (fun line => List.length (stripAnsi line)) (split_lines formatted).

(** A platform with chalk at colour level 1, as in a terminal. *)
Definition colour_platform : Platform :=
  {| chalk := chalk_basic; Number_toString := String_of_number |}.
(* ====================================================================== *)
(** ** The console log and computations that leave the store alone *)
(* ====================================================================== *)

Lemma w_log_nil (w : World) : w_log w [] = w.
Proof. destruct w; unfold w_log; simpl; now rewrite app_nil_r. Qed.

Lemma w_log_app (w : World) (l1 l2 : list ConsoleCall) :
  w_log (w_log w l1) l2 = w_log w (l1 ++ l2).
Proof. unfold w_log; simpl; now rewrite app_assoc. Qed.

Lemma console_call_run (c : ConsoleCall) (w : World) :
  console_call c w = (Returned tt, w_log w [c]).
Proof. reflexivity. Qed.

Lemma stateless_ret {A : Type} (a : A) : stateless (ret a).
Proof. now intros w. Qed.

Lemma stateless_throw {A : Type} (e : Thrown) : stateless (@throw A e).
Proof. now intros w. Qed.

Lemma stateless_bind {A B : Type} (m : M A) (k : A -> M B) :
  stateless m -> (forall a, stateless (k a)) -> stateless (bind m k).
Proof.
  intros Hm Hk w. unfold result_of, bind.
  rewrite (Hm w), (Hm fresh).
  destruct (result_of m) as [a|e]; [|reflexivity].
  now rewrite (Hk a w), (Hk a fresh).
Qed.

Lemma bind_stateless {A B : Type} (m : M A) (k : A -> M B) (w : World) :
  stateless m ->
  bind m k w = match result_of m with
               | Returned a => k a w
               | Threw e => (Threw e, w)
               end.
Proof. intros Hm. unfold bind. now rewrite (Hm w). Qed.

Lemma stateless_read_first (input : JsVal) (k : string) :
  stateless (read_first input k).
Proof. destruct input; simpl; solve [apply stateless_ret | apply stateless_throw]. Qed.

Lemma stateless_required_thought (data : JsVal) :
  stateless (required_thought data).
Proof.
  apply stateless_bind; [apply stateless_read_first|].
  intros [ | | | |s| | ]; try apply stateless_throw.
  destruct (negb (truthy (JStr s)));
    [apply stateless_throw | apply stateless_ret].
Qed.

Lemma stateless_required_positive_integer data k e :
  stateless (required_positive_integer data k e).
Proof.
  unfold required_positive_integer.
  destruct (field data k); try apply stateless_throw.
  destruct (negb (isInteger n) || num_lt n (int 1));
    [apply stateless_throw | apply stateless_ret].
Qed.

Lemma stateless_required_boolean data k e :
  stateless (required_boolean data k e).
Proof.
  unfold required_boolean.
  destruct (field data k); solve [apply stateless_throw | apply stateless_ret].
Qed.

Lemma stateless_optional_confidence_score data :
  stateless (optional_confidence_score data).
Proof.
  unfold optional_confidence_score.
  destruct (field data "confidence_score");
    try solve [apply stateless_throw | apply stateless_ret].
  destruct (num_lt n (int 0) || num_gt n (int 1));
    [apply stateless_throw | apply stateless_ret].
Qed.

Lemma stateless_check_item item index : stateless (check_item item index).
Proof.
  unfold check_item.
  destruct (negb (is_type item t_object) || is_null item);
    [apply stateless_throw|].
  destruct (field item "entity"); try apply stateless_throw.
  destruct (negb (str_truthy s)); [apply stateless_throw|].
  destruct (status_of (field item "status"));
    [apply stateless_ret | apply stateless_throw].
Qed.

Lemma stateless_map_items items :
  forall index, stateless (map_items items index).
Proof.
  induction items as [|item rest IH]; intros index; simpl.
  - apply stateless_ret.
  - apply stateless_bind; [apply stateless_check_item|]. intros ka.
    apply stateless_bind; [apply IH|]. intros kas. apply stateless_ret.
Qed.

Lemma stateless_optional_knowledge_assessment data :
  stateless (optional_knowledge_assessment data).
Proof.
  unfold optional_knowledge_assessment.
  destruct (field data "knowledge_assessment");
    try solve [apply stateless_throw | apply stateless_ret].
  apply stateless_bind; [apply stateless_map_items|].
  intros kas. apply stateless_ret.
Qed.

(* ====================================================================== *)
(** ** What each check of the validator lets through *)
(* ====================================================================== *)

Arguments field : simpl never.
Arguments num_lt : simpl never.
Arguments num_le : simpl never.
Arguments num_gt : simpl never.
Arguments num_ge : simpl never.
Arguments isInteger : simpl never.
Arguments status_of : simpl never.

Lemma field_of_non_object (v : JsVal) (k : string) :
  (forall props, v <> JObj props) -> field v k = JUndefined.
Proof. destruct v; intros H; try reflexivity. now elim (H props). Qed.

Lemma str_truthy_nonempty (s : jsstring) : str_truthy s = true <-> s <> [].
Proof. destruct s; simpl; split; congruence. Qed.

Lemma required_thought_returns (data : JsVal) (s : jsstring) :
  result_of (required_thought data) = Returned s
  <-> field data "thought" = JStr s /\ s <> [].
Proof.
  unfold result_of, required_thought, bind, read_first.
  destruct data; try (cbn; split; [discriminate | intros [H _]; discriminate H]).
  cbn. destruct (field (JObj props) "thought") as [ | | | |t| | ];
    try (cbn; split; [discriminate | intros [H _]; discriminate H]).
  destruct t as [|c t]; cbn.
  - split; [discriminate | intros [H1 H2]]. injection H1 as <-. now elim H2.
  - split.
    + intros H. injection H as <-. split; [reflexivity | discriminate].
    + intros [H _]. now injection H as <-.
Qed.

Lemma required_positive_integer_returns data k e (n : JsNum) :
  result_of (required_positive_integer data k e) = Returned n
  <-> field data k = JNum n
      /\ isInteger n = true /\ num_lt n (int 1) = false.
Proof.
  unfold result_of, required_positive_integer.
  destruct (field data k) as [ | | |m| | | ];
    try (cbn; split; [discriminate | intros [H _]; discriminate H]).
  destruct (isInteger m) eqn:Hi, (num_lt m (int 1)) eqn:Hl; cbn; split;
    try discriminate;
    try (intros H; injection H as <-; now repeat split);
    intros (H & H1 & H2); injection H as <-; congruence.
Qed.

Lemma required_boolean_returns data k e (b : bool) :
  result_of (required_boolean data k e) = Returned b
  <-> field data k = JBool b.
Proof.
  unfold result_of, required_boolean.
  destruct (field data k); cbn; split; try discriminate;
    intros H; injection H as <-; reflexivity.
Qed.

Lemma optional_confidence_score_returns data (oc : option JsNum) :
  result_of (optional_confidence_score data) = Returned oc
  <-> match field data "confidence_score" with
      | JUndefined => oc = None
      | JNum c =>
          oc = Some c /\ num_lt c (int 0) = false /\ num_gt c (int 1) = false
      | _ => False
      end.
Proof.
  unfold result_of, optional_confidence_score.
  destruct (field data "confidence_score") as [ | | |c| | | ]; cbn;
    try (split; [discriminate | contradiction]).
  - split; [intros H; now injection H as <- | now intros ->].
  - destruct (num_lt c (int 0)) eqn:H0, (num_gt c (int 1)) eqn:H1; cbn; split;
      try discriminate;
      try (intros H; injection H as <-; now repeat split);
      intros (H & Ha & Hb); congruence.
Qed.

Lemma check_item_returns item index (ka : KnowledgeAssessment) :
  result_of (check_item item index) = Returned ka <-> item_accepts item ka.
Proof.
  unfold result_of, check_item, item_accepts.
  destruct item; cbn;
    try (split; [discriminate | intros (H & _); discriminate H]).
  destruct (field (JObj props) "entity") as [ | | | |e| | ]; cbn;
    try (split; [discriminate | intros (H & _); discriminate H]).
  destruct e as [|c e]; cbn.
  - split; [discriminate | intros (H & Hne & _)].
    injection H as H. now rewrite <- H in Hne.
  - destruct (status_of (field (JObj props) "status")) as [st|]; cbn.
    + split.
      * intros H. injection H as <-. cbn. repeat split. discriminate.
      * intros (H & _ & Hs). destruct ka as [e' st']; cbn in *.
        congruence.
    + split; [discriminate | intros (_ & _ & H); discriminate H].
Qed.


(** What the callback throws is one of its three errors, with the index it
    was given. *)
Lemma check_item_throws item index (e : Thrown) :
  result_of (check_item item index) = Threw e ->
  e = Invalid_item_object index \/ e = Invalid_item_entity index
  \/ e = Invalid_item_status index.
Proof.
  unfold result_of, check_item.
  destruct (negb (is_type item t_object) || is_null item); cbn;
    [intros H; injection H as <-; auto|].
  destruct (field item "entity") as [ | | | |s| | ]; cbn;
    try (intros H; injection H as <-; auto).
  destruct (negb (str_truthy s)); cbn;
    [intros H; injection H as <-; auto|].
  destruct (status_of (field item "status")); cbn;
    [discriminate | intros H; injection H as <-; auto].
Qed.


Lemma map_items_returns items :
  forall index kas,
    result_of (map_items items index) = Returned kas
    <-> Forall2 item_accepts items kas.
Proof.
  induction items as [|item rest IH]; intros index kas.
  - cbn. split.
    + intros H. injection H as <-. constructor.
    + intros H. inversion H. reflexivity.
  - unfold result_of. cbn [map_items].
    rewrite (bind_stateless _ _ (stateless_check_item item index)).
    destruct (result_of (check_item item index)) as [ka|e] eqn:Hc.
    + rewrite (bind_stateless _ _ (stateless_map_items rest (S index))).
      destruct (result_of (map_items rest (S index))) as [kas'|e] eqn:Hm.
      * cbn. split.
        -- intros H. injection H as <-. constructor.
           ++ now apply (check_item_returns item index).
           ++ now apply (IH (S index)).
        -- intros H. inversion H as [|? ka' ? kas'' Hi Hr]; subst.
           apply (check_item_returns item index) in Hi.
           apply (IH (S index)) in Hr. congruence.
      * cbn. split; [discriminate|].
        intros H. inversion H as [|? ka' ? kas'' Hi Hr]; subst.
        apply (IH (S index)) in Hr. congruence.
    + cbn. split; [discriminate|].
      intros H. inversion H as [|? ka' ? kas'' Hi Hr]; subst.
      apply (check_item_returns item index) in Hi. congruence.
Qed.


(** Whatever [map] throws is one of the three errors about an element. *)
Lemma map_items_throws items :
  forall index e,
    result_of (map_items items index) = Threw e ->
    exists j, e = Invalid_item_object j \/ e = Invalid_item_entity j
              \/ e = Invalid_item_status j.
Proof.
  induction items as [|item rest IH]; intros index e.
  - discriminate.
  - unfold result_of. cbn [map_items].
    rewrite (bind_stateless _ _ (stateless_check_item item index)).
    destruct (result_of (check_item item index)) as [ka|e'] eqn:Hc.
    + rewrite (bind_stateless _ _ (stateless_map_items rest (S index))).
      destruct (result_of (map_items rest (S index))) as [kas|e'] eqn:Hm;
        cbn; [discriminate|].
      intros H. injection H as <-. exact (IH _ _ Hm).
    + cbn. intros H. injection H as <-. exists index.
      exact (check_item_throws _ _ Hc).
Qed.


Lemma optional_knowledge_assessment_returns data
      (o : option (list KnowledgeAssessment)) :
  result_of (optional_knowledge_assessment data) = Returned o
  <-> match field data "knowledge_assessment" with
      | JUndefined => o = None
      | JArr items =>
          exists kas, o = Some kas /\ Forall2 item_accepts items kas
      | _ => False
      end.
Proof.
  unfold result_of, optional_knowledge_assessment.
  destruct (field data "knowledge_assessment") as [ | | | | |items| ]; cbn;
    try (split; [discriminate | contradiction]).
  - split; [intros H; now injection H as <- | now intros ->].
  - rewrite (bind_stateless _ _ (stateless_map_items items 0)).
    destruct (result_of (map_items items 0)) as [kas|e] eqn:Hm; cbn.
    + split.
      * intros H. injection H as <-. exists kas. split; [reflexivity|].
        now apply (map_items_returns items 0).
      * intros (kas' & -> & H). apply (map_items_returns items 0) in H.
        congruence.
    + split; [discriminate|]. intros (kas' & _ & H).
      apply (map_items_returns items 0) in H. congruence.
Qed.

(* ====================================================================== *)
(** ** The validator as a whole *)
(* ====================================================================== *)

Lemma warnings_run a b c d e (w : World) :
  warnings a b c d e w = (Returned tt, w_log w (warning_list a b c d e)).
Proof.
  unfold warnings, warning_list, when, bind, console_call, ret, w_log.
  destruct (opt_truthy (fun x : bool => x) a && is_undefined b),
           (opt_truthy num_truthy c && is_undefined d),
           (negb (is_undefined e));
    cbn; rewrite <- ?app_assoc, ?app_nil_r; try reflexivity;
    now destruct w.
Qed.

(** In any state the validator gives the outcome it gives in a fresh one;
    it never touches the store, and writes its warnings only when it
    returns. *)
Lemma validate_run (input : JsVal) (w : World) :
  validateThoughtData input w =
  match result_of (validateThoughtData input) with
  | Returned td => (Returned td, w_log w (advisory input td))
  | Threw e => (Threw e, w)
  end.
Proof.
  unfold result_of at 1.
  unfold validateThoughtData.
  rewrite !(bind_stateless _ _ (stateless_required_thought _)).
  destruct (result_of (required_thought input)); [|reflexivity].
  rewrite !(bind_stateless _ _ (stateless_required_positive_integer _ _ _)).
  destruct (result_of (required_positive_integer input "thoughtNumber" _));
    [|reflexivity].
  rewrite !(bind_stateless _ _ (stateless_required_positive_integer _ _ _)).
  destruct (result_of (required_positive_integer input "totalThoughts" _));
    [|reflexivity].
  rewrite !(bind_stateless _ _ (stateless_required_boolean _ _ _)).
  destruct (result_of (required_boolean input "nextThoughtNeeded" _));
    [|reflexivity].
  rewrite !(bind_stateless _ _ (stateless_optional_confidence_score _)).
  destruct (result_of (optional_confidence_score input)); [|reflexivity].
  rewrite !(bind_stateless _ _ (stateless_optional_knowledge_assessment _)).
  destruct (result_of (optional_knowledge_assessment input)); [|reflexivity].
  unfold bind. rewrite !warnings_run. reflexivity.
Qed.

Lemma validate_accepts (input : JsVal) (td : ThoughtData) :
  result_of (validateThoughtData input) = Returned td <-> accepts input td.
Proof.
  unfold result_of, validateThoughtData.
  rewrite (bind_stateless _ _ (stateless_required_thought _)).
  destruct (result_of (required_thought input)) as [th|e] eqn:E1.
  2:{ split; [discriminate|]. intros [H]. 
      apply required_thought_returns in H. congruence. }
  rewrite (bind_stateless _ _ (stateless_required_positive_integer _ _ _)).
  destruct (result_of (required_positive_integer input "thoughtNumber" _))
    as [tn|e] eqn:E2.
  2:{ split; [discriminate|]. intros [_ H].
      apply (required_positive_integer_returns input "thoughtNumber"
               Invalid_thoughtNumber) in H. congruence. }
  rewrite (bind_stateless _ _ (stateless_required_positive_integer _ _ _)).
  destruct (result_of (required_positive_integer input "totalThoughts" _))
    as [tt_|e] eqn:E3.
  2:{ split; [discriminate|]. intros [_ _ H].
      apply (required_positive_integer_returns input "totalThoughts"
               Invalid_totalThoughts) in H. congruence. }
  rewrite (bind_stateless _ _ (stateless_required_boolean _ _ _)).
  destruct (result_of (required_boolean input "nextThoughtNeeded" _))
    as [nx|e] eqn:E4.
  2:{ split; [discriminate|]. intros [_ _ _ H].
      apply (required_boolean_returns input "nextThoughtNeeded"
               Invalid_nextThoughtNeeded) in H. congruence. }
  rewrite (bind_stateless _ _ (stateless_optional_confidence_score _)).
  destruct (result_of (optional_confidence_score input)) as [oc|e] eqn:E5.
  2:{ split; [discriminate|]. intros [_ _ _ _ H].
      apply optional_confidence_score_returns in H. congruence. }
  rewrite (bind_stateless _ _ (stateless_optional_knowledge_assessment _)).
  destruct (result_of (optional_knowledge_assessment input)) as [ok|e] eqn:E6.
  2:{ split; [discriminate|]. intros [_ _ _ _ _ H].
      apply optional_knowledge_assessment_returns in H. congruence. }
  unfold bind. rewrite warnings_run. cbn.
  apply required_thought_returns in E1.
  apply required_positive_integer_returns in E2, E3.
  apply required_boolean_returns in E4.
  pose proof (proj1 (optional_confidence_score_returns _ _) E5) as E5'.
  pose proof (proj1 (optional_knowledge_assessment_returns _ _) E6) as E6'.
  split.
  - intros H. injection H as <-. now constructor; cbn.
  - intros [H1 H2 H3 H4 H5 H6 H7 H8 H9 H10].
    destruct td as [th' tn' tt' nx' oc' ok' ir' rt' bf' bi']; cbn in *.
    destruct H1 as [H1 _], H2 as [H2 _], H3 as [H3 _].
    rewrite (proj1 E1) in H1. rewrite (proj1 E2) in H2.
    rewrite (proj1 E3) in H3. rewrite E4 in H4.
    injection H1 as <-. injection H2 as <-. injection H3 as <-.
    injection H4 as <-.
    apply optional_confidence_score_returns in H5.
    apply optional_knowledge_assessment_returns in H6.
    congruence.
Qed.

Lemma validate_returns (input : JsVal) (w w' : World) (td : ThoughtData) :
  validateThoughtData input w = (Returned td, w')
  <-> accepts input td /\ w' = w_log w (advisory input td).
Proof.
  rewrite validate_run.
  destruct (result_of (validateThoughtData input)) as [td'|e] eqn:E.
  - split.
    + intros H. injection H as <- <-. split; [|reflexivity].
      now apply validate_accepts.
    + intros [H ->]. apply validate_accepts in H. congruence.
  - split; [discriminate|]. intros [H _].
    apply validate_accepts in H. congruence.
Qed.

(* ====================================================================== *)
(** ** Association lists *)
(* ====================================================================== *)

Lemma str_eqb_eq (a b : jsstring) : str_eqb a b = true <-> a = b.
Proof.
  revert b. induction a as [|x a IH]; intros [|y b]; cbn;
    try (split; congruence).
  rewrite andb_true_iff, N.eqb_eq, IH. split.
  - now intros [-> ->].
  - intros H. injection H as -> ->. now split.
Qed.

Lemma str_eqb_refl (a : jsstring) : str_eqb a a = true.
Proof. now apply str_eqb_eq. Qed.

Lemma str_eqb_neq (a b : jsstring) : str_eqb a b = false <-> a <> b.
Proof.
  rewrite <- str_eqb_eq. destruct (str_eqb a b); split; congruence.
Qed.

Section Assoc.
Variable A : Type.
Implicit Types (l : list (jsstring * A)) (k : jsstring) (v : A).

Lemma assoc_set_same k v l : assoc k (assoc_set k v l) = Some v.
Proof.
  induction l as [|[k' v'] l IH]; cbn.
  - now rewrite str_eqb_refl.
  - destruct (str_eqb k k') eqn:E; cbn; now rewrite E.
Qed.

Lemma assoc_set_other k k' v l :
  k' <> k -> assoc k' (assoc_set k v l) = assoc k' l.
Proof.
  intros Hne. induction l as [|[k0 v0] l IH]; cbn.
  - apply str_eqb_neq in Hne. now rewrite Hne.
  - destruct (str_eqb k k0) eqn:E; cbn.
    + apply str_eqb_eq in E. subst k0.
      now rewrite (proj2 (str_eqb_neq k' k) Hne).
    + now rewrite IH.
Qed.

Lemma assoc_set_twice k v1 v2 l :
  assoc_set k v2 (assoc_set k v1 l) = assoc_set k v2 l.
Proof.
  induction l as [|[k' v'] l IH]; cbn.
  - now rewrite str_eqb_refl.
  - destruct (str_eqb k k') eqn:E; cbn; rewrite E; [reflexivity|].
    now rewrite IH.
Qed.

Lemma assoc_set_absent k v l :
  assoc k l = None -> assoc_set k v l = l ++ [(k, v)].
Proof.
  induction l as [|[k' v'] l IH]; cbn; [reflexivity|].
  destruct (str_eqb k k'); [discriminate|]. intros H. now rewrite IH.
Qed.

Lemma assoc_set_keys k v l :
  assoc k l <> None -> map fst (assoc_set k v l) = map fst l.
Proof.
  induction l as [|[k' v'] l IH]; cbn; [congruence|].
  destruct (str_eqb k k') eqn:E; cbn; [reflexivity|].
  intros H. now rewrite IH.
Qed.

End Assoc.

(* ====================================================================== *)
(** ** [processThought], step by step *)
(* ====================================================================== *)

Lemma adjust_run (td : ThoughtData) (w : World) :
  adjust_totalThoughts td w = (Returned (adjusted td), w_log w (adjustment td)).
Proof.
  unfold adjust_totalThoughts, adjusted, adjustment.
  destruct (num_gt (thoughtNumber td) (totalThoughts td)); cbn.
  - reflexivity.
  - unfold ret. now rewrite w_log_nil.
Qed.

Lemma adjusted_fields (td : ThoughtData) :
  thought (adjusted td) = thought td
  /\ thoughtNumber (adjusted td) = thoughtNumber td
  /\ nextThoughtNeeded (adjusted td) = nextThoughtNeeded td
  /\ confidence_score (adjusted td) = confidence_score td
  /\ knowledge_assessment (adjusted td) = knowledge_assessment td
  /\ isRevision (adjusted td) = isRevision td
  /\ revisesThought (adjusted td) = revisesThought td
  /\ branchFromThought (adjusted td) = branchFromThought td
  /\ branchId (adjusted td) = branchId td.
Proof.
  unfold adjusted.
  destruct (num_gt (thoughtNumber td) (totalThoughts td)); now cbn.
Qed.

Lemma branch_key_adjusted (td : ThoughtData) :
  branch_key (adjusted td) = branch_key td.
Proof.
  unfold branch_key.
  destruct (adjusted_fields td) as (_ & _ & _ & _ & _ & _ & _ & -> & ->).
  reflexivity.
Qed.

Arguments inherited : simpl never.
Arguments assoc : simpl never.

(** Step 4 in closed form. *)
Lemma track_branch_run (td : ThoughtData) (w : World) :
  track_branch td w =
  match branch_key td with
  | None => (Returned tt, w)
  | Some (id, from) =>
      match assoc id (branches w) with
      | Some steps =>
          (Returned tt,
           {| thoughtHistory := thoughtHistory w;
              branches := assoc_set id (steps ++ [td]) (branches w);
              console := console w |})
      | None =>
          if inherited id
          then (Threw TypeError_push_not_a_function, w)
          else
            (Returned tt,
             {| thoughtHistory := thoughtHistory w;
                branches := branches w ++ [(id, [td])];
                console := console w ++ [error_new_branch id from] |})
      end
  end.
Proof.
  unfold track_branch, branch_key.
  destruct (branchFromThought td) as [from|]; [|reflexivity].
  destruct (branchId td) as [id|]; [|reflexivity].
  destruct (num_truthy from && str_truthy id); [|reflexivity].
  unfold bind, branches_get, branch_push, bind, branches_get, when.
  destruct (assoc id (branches w)) as [steps|] eqn:Ea; cbn.
  - rewrite ?Ea. cbn. reflexivity.
  - destruct (inherited id) eqn:Ei; cbn.
    + rewrite ?Ea, ?Ei. cbn. reflexivity.
    + unfold bind. cbn. rewrite assoc_set_same. cbn.
      unfold set_branch. cbn.
      rewrite assoc_set_twice, (assoc_set_absent _ _ _ Ea). reflexivity.
Qed.

Section Process.
Context {platform : Platform}.

Lemma process_rejected (input : JsVal) (w : World) (e : Thrown) :
  result_of (validateThoughtData input) = Threw e ->
  processThought input w
  = (Returned (failure e), w_log w [error_processing (message e)]).
Proof.
  intros H. unfold processThought, try_catch, bind at 1.
  rewrite validate_run, H. reflexivity.
Qed.

Lemma process_accepted (input : JsVal) (w : World) (td : ThoughtData) :
  result_of (validateThoughtData input) = Returned td ->
  processThought input w
  = match track_branch (adjusted td) (pushed input td w) with
    | (Returned _, this) =>
        (Returned (acknowledgement (adjusted td)
                     (w_log this [error_formatted (formatThought (adjusted td))])),
         w_log this [error_formatted (formatThought (adjusted td))])
    | (Threw e, this) =>
        (Returned (failure e), w_log this [error_processing (message e)])
    end.
Proof.
  intros H. unfold processThought, try_catch, bind at 1.
  rewrite validate_run, H.
  unfold bind at 1. rewrite adjust_run.
  unfold bind at 1. unfold history_push at 1. cbn [thoughtHistory branches console w_log].
  unfold bind at 1.
  replace {| thoughtHistory := thoughtHistory w ++ [adjusted td];
             branches := branches w;
             console := (console w ++ advisory input td) ++ adjustment td |}
    with (pushed input td w)
    by (unfold pushed; now rewrite app_assoc).
  destruct (track_branch (adjusted td) (pushed input td w)) as [[[]|e] this];
    reflexivity.
Qed.

End Process.

(* ====================================================================== *)
(** ** Replies and the store *)
(* ====================================================================== *)

Section Replies.
Context {platform : Platform}.

(** Whatever the input, [processThought] returns, and what it returns has
    one of the two shapes. *)
Lemma processThought_replies (input : JsVal) (w : World) :
  exists r w',
    processThought input w = (Returned r, w')
    /\ (is_success r = true \/ is_failure r = true).
Proof.
  destruct (result_of (validateThoughtData input)) as [td|e] eqn:E.
  - rewrite (process_accepted _ w E).
    destruct (track_branch (adjusted td) (pushed input td w)) as [[[]|e] this];
      eexists; eexists; (split; [reflexivity|]); cbn; auto.
  - rewrite (process_rejected _ w E). eexists; eexists.
    split; [reflexivity|]. cbn; auto.
Qed.

(** An input the validator rejects leaves history and branches alone. *)
Lemma rejected_stores_nothing (input : JsVal) (w : World) (e : Thrown) :
  result_of (validateThoughtData input) = Threw e ->
  thoughtHistory (snd (processThought input w)) = thoughtHistory w
  /\ branches (snd (processThought input w)) = branches w.
Proof. intros E. rewrite (process_rejected _ w E). now cbn. Qed.

Lemma track_branch_keeps_history (td : ThoughtData) (w : World) :
  thoughtHistory (snd (track_branch td w)) = thoughtHistory w.
Proof.
  rewrite track_branch_run.
  destruct (branch_key td) as [[id from]|]; [|reflexivity].
  destruct (assoc id (branches w)); [reflexivity|].
  now destruct (inherited id).
Qed.

(** The history after a call: one more Step when the input was accepted,
    whether or not the call then succeeds. *)
Lemma process_history (input : JsVal) (w : World) :
  thoughtHistory (snd (processThought input w))
  = match result_of (validateThoughtData input) with
    | Returned td => thoughtHistory w ++ [adjusted td]
    | Threw _ => thoughtHistory w
    end.
Proof.
  destruct (result_of (validateThoughtData input)) as [td|e] eqn:E.
  - rewrite (process_accepted _ w E).
    pose proof (track_branch_keeps_history (adjusted td) (pushed input td w))
      as H.
    destruct (track_branch (adjusted td) (pushed input td w)) as [[[]|e] this];
      cbn in *; now rewrite H.
  - now rewrite (process_rejected _ w E).
Qed.

(** A success comes from an accepted input only, adds exactly one Step and
    reports the new length. *)
Lemma success_grows_history (input : JsVal) (w w' : World) (r : ToolResult)
      (p : SuccessPayload) :
  processThought input w = (Returned r, w') ->
  content r = success p ->
  passes (validateThoughtData input) = true
  /\ List.length (thoughtHistory w') = S (List.length (thoughtHistory w))
  /\ total_history_length p = List.length (thoughtHistory w').
Proof.
  intros H Hp. unfold passes.
  pose proof (process_history input w) as Hh. rewrite H in Hh. cbn in Hh.
  destruct (result_of (validateThoughtData input)) as [td|e] eqn:E.
  - split; [reflexivity|].
    rewrite (process_accepted _ w E) in H.
    destruct (track_branch (adjusted td) (pushed input td w)) as [[[]|e] this];
      injection H as <- <-; cbn in Hp; [|discriminate].
    injection Hp as <-. cbn in *. rewrite Hh, length_app. cbn.
    split; [lia | reflexivity].
  - rewrite (process_rejected _ w E) in H. injection H as <- <-.
    discriminate Hp.
Qed.

End Replies.

(** C1 (the code departs from the claim). A step whose [branchId] names a
    property that every object inherits, here [constructor], passes
    validation and is pushed onto the history; the branch bookkeeping then
    throws, the [catch] turns that into a failure reply, and the history
    keeps the step: the call fails yet something was stored. *)
Theorem failed_call_keeps_pushed_step (platform : Platform) :
  exists w',
    processThought (branch_input 2 "constructor") fresh
    = (Returned (failure TypeError_push_not_a_function), w')
    /\ thoughtHistory fresh = []
    /\ List.length (thoughtHistory w') = 1
    /\ branches w' = branches fresh.
Proof. eexists. split; [vm_compute; reflexivity|]. now cbn. Qed.

(** C2 (the code departs from the claim). The input passes every check of
    the validator, yet the reply is a failure: with [branchId] equal to
    [__proto__] the lookup in [branches] answers with the object prototype,
    which has no [push]. *)
Theorem valid_input_without_success (platform : Platform) :
  passes (validateThoughtData (branch_input 1 "__proto__")) = true
  /\ exists r w',
       processThought (branch_input 1 "__proto__") fresh = (Returned r, w')
       /\ is_success r = false
       /\ content r = failed (message TypeError_push_not_a_function).
Proof.
  split; [reflexivity|]. eexists; eexists.
  split; [vm_compute; reflexivity|]. now cbn.
Qed.

(* ====================================================================== *)
(** ** The auto-adjustment of [totalThoughts] *)
(* ====================================================================== *)

Lemma isInteger_finite (n : JsNum) :
  isInteger n = true -> exists q, n = Fin q.
Proof. destruct n; try discriminate. eauto. Qed.

Lemma set_totalThoughts_same (td : ThoughtData) :
  set_totalThoughts td (totalThoughts td) = td.
Proof. now destruct td. Qed.

Lemma adjusted_as_update (td : ThoughtData) :
  adjusted td
  = set_totalThoughts td
      (if num_gt (thoughtNumber td) (totalThoughts td)
       then thoughtNumber td else totalThoughts td).
Proof.
  unfold adjusted.
  destruct (num_gt (thoughtNumber td) (totalThoughts td));
    [reflexivity | now rewrite set_totalThoughts_same].
Qed.

Lemma consistent_adjusted (input : JsVal) (td : ThoughtData) :
  accepts input td -> consistent (adjusted td) = true.
Proof.
  intros [_ (_ & Hn & _) (_ & Ht & _) _ _ _ _ _ _ _].
  destruct (isInteger_finite _ Hn) as [x Hx].
  destruct (isInteger_finite _ Ht) as [y Hy].
  unfold adjusted, consistent, num_gt, num_ge.
  rewrite Hx, Hy.
  destruct (num_lt (Fin y) (Fin x)) eqn:E; cbn; rewrite ?Hx, ?Hy;
    unfold num_le, num_lt, Q_leb, Q_ltb in *.
  - apply Z.leb_refl.
  - apply Z.leb_le. apply Z.ltb_ge in E. exact E.
Qed.

Section Adjustment.
Context {platform : Platform}.

Lemma process_keeps_consistent (input : JsVal) (w : World) :
  Forall (fun td => consistent td = true) (thoughtHistory w) ->
  Forall (fun td => consistent td = true)
         (thoughtHistory (snd (processThought input w))).
Proof.
  intros H. rewrite process_history.
  destruct (result_of (validateThoughtData input)) as [td|e] eqn:E; [|exact H].
  apply Forall_app. split; [exact H|]. constructor; [|constructor].
  apply validate_accepts in E. eapply consistent_adjusted; eauto.
Qed.

Lemma run_keeps_consistent (inputs : list JsVal) :
  forall w,
    Forall (fun td => consistent td = true) (thoughtHistory w) ->
    Forall (fun td => consistent td = true) (thoughtHistory (run inputs w)).
Proof.
  induction inputs as [|input rest IH]; intros w H; cbn; [exact H|].
  apply IH. now apply process_keeps_consistent.
Qed.

(** The warning of step 2 is on the console after the call. *)
Lemma adjustment_logged (input : JsVal) (w : World) (td : ThoughtData) :
  result_of (validateThoughtData input) = Returned td ->
  forall c, In c (adjustment td) ->
            In c (console (snd (processThought input w))).
Proof.
  intros E c Hc. rewrite (process_accepted _ w E).
  assert (Hp : In c (console (pushed input td w))).
  { unfold pushed; cbn. rewrite !in_app_iff. auto. }
  rewrite track_branch_run.
  destruct (branch_key (adjusted td)) as [[id from]|];
    [destruct (assoc id (branches (pushed input td w)));
     [|destruct (inherited id)]|];
    cbn; rewrite ?in_app_iff; auto.
Qed.

(** What a successful call reports as [current_total_thoughts]. *)
Lemma success_reports_adjusted (input : JsVal) (w w' : World)
      (td : ThoughtData) (r : ToolResult) (p : SuccessPayload) :
  result_of (validateThoughtData input) = Returned td ->
  processThought input w = (Returned r, w') ->
  content r = success p ->
  thought_number_processed p = thoughtNumber td
  /\ current_total_thoughts p = totalThoughts (adjusted td)
  /\ next_thought_needed p = nextThoughtNeeded td
  /\ active_branches p = Object_keys (branches w').
Proof.
  intros E H Hp. rewrite (process_accepted _ w E) in H.
  destruct (track_branch (adjusted td) (pushed input td w)) as [[[]|e] this];
    injection H as <- <-; cbn in Hp; [|discriminate].
  injection Hp as <-. cbn.
  destruct (adjusted_fields td) as (_ & -> & -> & _). auto.
Qed.

End Adjustment.

(** C3. Every Step in the history of an instance, after any sequence of
    calls, has [totalThoughts >= thoughtNumber].  A call whose input the
    validator accepts as [td] appends [td] with [totalThoughts] raised to
    [thoughtNumber] when that was larger and every other field untouched;
    the history already there is not modified; the raise is announced by a
    warning; a success reports the stored total.  With [thoughtNumber = 5]
    and [totalThoughts = 3] the reply carries [current_total_thoughts = 5]. *)
Theorem stored_total_covers_number (platform : Platform) :
  (forall inputs : list JsVal,
      Forall (fun td => consistent td = true)
             (thoughtHistory (run inputs fresh)))
  /\ (forall (input : JsVal) (w : World) (td : ThoughtData),
         result_of (validateThoughtData input) = Returned td ->
         let larger := num_gt (thoughtNumber td) (totalThoughts td) in
         let stored :=
           set_totalThoughts td
             (if larger then thoughtNumber td else totalThoughts td) in
         thoughtHistory (snd (processThought input w))
         = thoughtHistory w ++ [stored]
         /\ (larger = true ->
             In (warn_totalThoughts_adjusted (thoughtNumber td)
                                             (totalThoughts td))
                (console (snd (processThought input w))))
         /\ (forall r w' p,
                processThought input w = (Returned r, w') ->
                content r = success p ->
                current_total_thoughts p = totalThoughts stored))
  /\ (exists p w',
         processThought (object (required_fields 5 3)) fresh
         = (Returned {| content := success p; isError := None |}, w')
         /\ current_total_thoughts p = int 5
         /\ In (warn_totalThoughts_adjusted (int 5) (int 3)) (console w')).
Proof.
  split; [|split].
  - intros inputs. apply run_keeps_consistent. constructor.
  - intros input w td E larger stored.
    assert (Hs : stored = adjusted td)
      by (symmetry; apply adjusted_as_update).
    rewrite Hs. split; [|split].
    + now rewrite process_history, E.
    + intros Hl. eapply adjustment_logged; [exact E|].
      unfold adjustment. fold larger. rewrite Hl. now left.
    + intros r w' p H Hp.
      eapply success_reports_adjusted; eauto.
  - eexists; eexists. split; [vm_compute; reflexivity|].
    split; [reflexivity | now left].
Qed.

(** The statement above at a concrete state: one Step stored, then the
    input of the example. *)
Lemma stored_total_covers_number_witness :
  let w := @run plain_platform [with_fields []] fresh in
  thoughtHistory
    (snd (@processThought plain_platform (object (required_fields 5 3)) w))
  = thoughtHistory w ++ [set_totalThoughts step_5_of_3 (int 5)]
  /\ In (warn_totalThoughts_adjusted (int 5) (int 3))
        (console
           (snd (@processThought plain_platform
                   (object (required_fields 5 3)) w))).
Proof.
  intros w.
  destruct (stored_total_covers_number plain_platform) as (_ & H & _).
  destruct (H (object (required_fields 5 3)) w step_5_of_3 eq_refl)
    as (H1 & H2 & _).
  split; [exact H1 | exact (H2 eq_refl)].
Defined.

(* ====================================================================== *)
(** ** What the Step keeps of the input *)
(* ====================================================================== *)

Lemma field_override_same (k : string) (v : JsVal) props :
  field (override k v props) k = v.
Proof. unfold field, override, assoc. now rewrite str_eqb_refl. Qed.

Lemma field_override_other (k k' : string) (v : JsVal) props :
  str_eqb (lit k') (lit k) = false ->
  field (override k v props) k' = field (JObj props) k'.
Proof. intros H. unfold field, override. unfold assoc at 1. now rewrite H. Qed.



Lemma accepts_any_branchId (v : JsVal) props (td : ThoughtData) :
  accepts (JObj props) td ->
  accepts (override "branchId" v props)
          (with_branchId td (string_or_undefined v)).
Proof.
  intros [H1 H2 H3 H4 H5 H6 H7 H8 H9 H10].
  constructor; cbn;
    rewrite ?field_override_same, ?field_override_other by reflexivity;
    try assumption; reflexivity.
Qed.

(** C4, counterexample. The empty string is a string: the validator keeps
    it as the Step's [branchId] instead of dropping it. *)
Lemma empty_branchId_is_retained :
  exists td,
    result_of (validateThoughtData (branch_input 2 "")) = Returned td
    /\ branchId td = Some []
    /\ branchId td <> None.
Proof. eexists. split; [reflexivity|]. now cbn. Qed.

(** C4, as amended. The validated Step holds [branchId] exactly when the
    input's value is a string, the empty string included; a value of any
    other type is dropped, and no value of [branchId] makes an otherwise
    accepted input fail. *)
Theorem branchId_kept_iff_string :
  (forall (input : JsVal) (td : ThoughtData),
      result_of (validateThoughtData input) = Returned td ->
      branchId td = match field input "branchId" with
                    | JStr s => Some s
                    | _ => None
                    end)
  /\ (forall (v : JsVal) props (td : ThoughtData),
         result_of (validateThoughtData (JObj props)) = Returned td ->
         result_of (validateThoughtData (override "branchId" v props))
         = Returned (with_branchId td match v with
                                      | JStr s => Some s
                                      | _ => None
                                      end)).
Proof.
  split.
  - intros input td E. apply validate_accepts in E.
    now destruct E as [_ _ _ _ _ _ _ _ _ ->].
  - intros v props td E. apply validate_accepts.
    apply validate_accepts in E. exact (accepts_any_branchId v E).
Qed.

Lemma branchId_kept_iff_string_witness :
  branchId step_5_of_3 = None
  /\ result_of (validateThoughtData
                  (override "branchId" (number 7)
                     (properties (required_fields 5 3))))
     = Returned (with_branchId step_5_of_3 None)
  /\ result_of (validateThoughtData
                  (override "branchId" (text "")
                     (properties (required_fields 5 3))))
     = Returned (with_branchId step_5_of_3 (Some [])).
Proof.
  destruct branchId_kept_iff_string as [H1 H2].
  split; [exact (H1 (object (required_fields 5 3)) step_5_of_3 eq_refl)|].
  split.
  - exact (H2 (number 7) (properties (required_fields 5 3)) step_5_of_3
               eq_refl).
  - exact (H2 (text "") (properties (required_fields 5 3)) step_5_of_3
               eq_refl).
Defined.





(* ====================================================================== *)
(** ** Branches *)
(* ====================================================================== *)

Lemma positive_integer_truthy (v : JsVal) (n : JsNum) :
  positive_integer v = Some n -> num_truthy n = true.
Proof.
  unfold positive_integer. destruct v as [ | | |m| | | ]; try discriminate.
  destruct (isInteger m) eqn:Hi; [|discriminate].
  destruct (num_ge m (int 1)) eqn:Hg; [|discriminate].
  intros H. injection H as <-.
  destruct m as [ |neg|q]; try discriminate.
  unfold num_ge, num_le, Q_leb, int, inject_Z in Hg. cbn in Hg.
  apply Z.leb_le in Hg. cbn. apply negb_true_iff, Z.eqb_neq.
  pose proof (Pos2Z.is_pos (Qden q)). lia.
Qed.

(** The key a validated Step is filed under, spelled out. *)
Lemma branch_key_accepted (input : JsVal) (td : ThoughtData) :
  accepts input td ->
  branch_key td
  = match branchFromThought td, branchId td with
    | Some from, Some (c :: id) => Some (c :: id, from)
    | _, _ => None
    end.
Proof.
  intros [_ _ _ _ _ _ _ _ Hb _]. unfold branch_key.
  destruct (branchFromThought td) as [from|]; [|reflexivity].
  symmetry in Hb. apply positive_integer_truthy in Hb. rewrite Hb.
  now destruct (branchId td) as [[|c id]|].
Qed.

Section Branches.
Context {platform : Platform}.

(** The branches after a call whose input was accepted. *)
Lemma process_branches (input : JsVal) (w : World) (td : ThoughtData) :
  result_of (validateThoughtData input) = Returned td ->
  branches (snd (processThought input w))
  = branches (snd (track_branch (adjusted td) (pushed input td w))).
Proof.
  intros E. rewrite (process_accepted _ w E).
  now destruct (track_branch (adjusted td) (pushed input td w))
    as [[[]|e] this].
Qed.


End Branches.

(** C5, counterexample. The validated Step carries both [branchFromThought]
    and [branchId], the latter empty; it is filed under no branch. *)
Lemma step_with_both_fields_not_filed :
  exists td,
    result_of (validateThoughtData (branch_input 2 "")) = Returned td
    /\ branchFromThought td = Some (int 2)
    /\ branchId td = Some []
    /\ branches (snd (@processThought plain_platform (branch_input 2 "")
                        fresh)) = [].
Proof.
  eexists. split; [reflexivity|]. repeat split.
Qed.

(** C5, as amended. Take a branch identifier that is not the name of a
    property inherited from the object prototype.  A validated Step is
    appended to the sequence of that branch exactly when it carries
    [branchFromThought] and that identifier, not empty, as its [branchId]:
    then the sequence of the branch grows by the stored Step, and when the
    branch did not exist it is created at the end of the mapping with this
    Step as its only entry and the creation is announced on the console;
    otherwise the branch is as it was.  A Step without [branchFromThought],
    without [branchId] or with an empty [branchId] leaves the whole mapping
    as it was.  In every case the stored Step is appended to the history.
    Two steps on branch A followed by one on branch B give the branches A
    and B with two entries and one. *)
Theorem step_filed_under_nonempty_branchId (platform : Platform) :
  (forall (input : JsVal) (w : World) (td : ThoughtData),
      result_of (validateThoughtData input) = Returned td ->
      let w' := snd (processThought input w) in
      thoughtHistory w' = thoughtHistory w ++ [adjusted td]
      /\ (forall id,
             inherited id = false ->
             ((exists from, branchFromThought td = Some from)
              /\ branchId td = Some id /\ id <> [] ->
              branch_steps w' id = branch_steps w id ++ [adjusted td]
              /\ (assoc id (branches w) <> None ->
                  map fst (branches w') = map fst (branches w))
              /\ (assoc id (branches w) = None ->
                  branches w' = branches w ++ [(id, [adjusted td])]
                  /\ exists from,
                       branchFromThought td = Some from
                       /\ In (error_new_branch id from) (console w')))
             /\ (~ ((exists from, branchFromThought td = Some from)
                    /\ branchId td = Some id /\ id <> []) ->
                 assoc id (branches w') = assoc id (branches w)))
      /\ (branchFromThought td = None \/ branchId td = None
          \/ branchId td = Some [] ->
          branches w' = branches w))
  /\ (let w3 := run [branch_input 2 "A"; branch_input 2 "A";
                     branch_input 2 "B"] fresh in
      Permutation (Object_keys (branches w3)) [lit "A"; lit "B"]
      /\ List.length (branch_steps w3 (lit "A")) = 2
      /\ List.length (branch_steps w3 (lit "B")) = 1
      /\ exists p w2,
           processThought (branch_input 2 "B")
                          (run [branch_input 2 "A"; branch_input 2 "A"] fresh)
           = (Returned {| content := success p; isError := None |}, w2)
           /\ Permutation (active_branches p) [lit "A"; lit "B"]).
Proof.
  split.
  - intros input w td E w'. subst w'.
    pose proof (proj1 (validate_accepts _ _) E) as Ha.
    pose proof (branch_key_accepted Ha) as Hk.
    split; [now rewrite process_history, E|].
    unfold branch_steps.
    rewrite (process_accepted _ w E), track_branch_run, branch_key_adjusted,
      Hk.
    split.
    + intros id Hin. split.
      * intros ([from Hf] & Hi & Hne). rewrite Hf, Hi.
        destruct id as [|c id]; [congruence|].
        cbn [branches pushed].
        destruct (assoc (c :: id) (branches w)) as [steps|] eqn:Ea.
        -- cbn [snd branches console thoughtHistory w_log pushed].
           rewrite assoc_set_same.
           split; [reflexivity|]. split; [|discriminate].
           intros _. apply assoc_set_keys. congruence.
        -- rewrite Hin. cbn [snd branches console thoughtHistory w_log pushed].
           rewrite <- (assoc_set_absent _ _ _ Ea), assoc_set_same.
           split; [reflexivity|]. split; [congruence|].
           intros _. split; [reflexivity|]. exists from.
           split; [reflexivity|]. rewrite !in_app_iff. cbn. tauto.
      * intros Hnot.
        destruct (branchFromThought td) as [from|] eqn:Hf; [|reflexivity].
        destruct (branchId td) as [[|c k]|] eqn:Hi; try reflexivity.
        assert (Hd : id <> c :: k).
        { intros ->. apply Hnot. split; [eauto|].
          split; [reflexivity | discriminate]. }
        cbn [branches pushed].
        destruct (assoc (c :: k) (branches w)) as [steps|] eqn:Ea.
        -- cbn [snd branches console thoughtHistory w_log pushed].
           now apply assoc_set_other.
        -- destruct (inherited (c :: k));
             cbn [snd branches console thoughtHistory w_log pushed];
             [reflexivity|].
           rewrite <- (assoc_set_absent _ _ _ Ea). now apply assoc_set_other.
    + intros H.
      destruct H as [H | [H | H]]; rewrite H; try reflexivity;
        now destruct (branchFromThought td).
  - cbn zeta. split; [vm_compute; apply perm_skip, perm_skip, perm_nil|].
    split; [now vm_compute|]. split; [now vm_compute|].
    eexists; eexists. split; [vm_compute; reflexivity|].
    cbn. apply Permutation_refl.
Qed.


Lemma step_filed_under_nonempty_branchId_witness :
  let td := {| thought := lit "Dallas is in Texas";
               thoughtNumber := int 1; totalThoughts := int 3;
               nextThoughtNeeded := true;
               confidence_score := None; knowledge_assessment := None;
               isRevision := None; revisesThought := None;
               branchFromThought := Some (int 2);
               branchId := Some (lit "A") |} in
  let w' := snd (@processThought plain_platform (branch_input 2 "A") fresh) in
  result_of (validateThoughtData (branch_input 2 "A")) = Returned td
  /\ thoughtHistory w' = thoughtHistory fresh ++ [adjusted td]
  /\ branches w' = branches fresh ++ [(lit "A", [adjusted td])]
  /\ assoc (lit "B") (branches w') = assoc (lit "B") (branches fresh).
Proof.
  intros td w'.
  assert (E : result_of (validateThoughtData (branch_input 2 "A"))
              = Returned td) by (vm_compute; reflexivity).
  destruct (step_filed_under_nonempty_branchId plain_platform) as [H _].
  destruct (H (branch_input 2 "A") fresh td E) as (Hh & Hb & _).
  split; [exact E|]. split; [exact Hh|]. split.
  - destruct (Hb (lit "A") ltac:(vm_compute; reflexivity)) as [Hyes _].
    assert (Hc : (exists from, branchFromThought td = Some from)
                 /\ branchId td = Some (lit "A") /\ lit "A" <> []).
    { split; [exists (int 2); reflexivity|].
      split; [reflexivity | discriminate]. }
    destruct (Hyes Hc) as (_ & _ & Hnew).
    exact (proj1 (Hnew ltac:(vm_compute; reflexivity))).
  - destruct (Hb (lit "B") ltac:(vm_compute; reflexivity)) as [_ Hno].
    apply Hno. intros (_ & Hi & _). discriminate Hi.
Defined.




(* ====================================================================== *)
(** ** The confidence score *)
(* ====================================================================== *)

Lemma num_lt_false_le (a b : JsNum) :
  a <> NaN -> b <> NaN -> (num_lt a b = false <-> num_le b a = true).
Proof.
  intros Ha Hb. destruct a as [ |[|]|x], b as [ |[|]|y]; try congruence;
    unfold num_lt, num_le; try (split; congruence).
  unfold Q_ltb, Q_leb. rewrite Z.ltb_ge, Z.leb_le. reflexivity.
Qed.

(** For every number but NaN the check of [confidence_score] lets through
    exactly the interval from 0 to 1, and a value that is present and not a
    number is refused. *)
Lemma confidence_score_checked (data : JsVal) :
  match field data "confidence_score" with
  | JUndefined => result_of (optional_confidence_score data) = Returned None
  | JNum c =>
      c <> NaN ->
      if num_le (int 0) c && num_le c (int 1)
      then result_of (optional_confidence_score data) = Returned (Some c)
      else result_of (optional_confidence_score data)
           = Threw Invalid_confidence_score
  | _ => result_of (optional_confidence_score data)
         = Threw Invalid_confidence_score
  end.
Proof.
  unfold result_of, optional_confidence_score.
  destruct (field data "confidence_score") as [ | | |c| | | ];
    try reflexivity.
  intros Hc. unfold num_gt.
  assert (H0 : int 0 <> NaN) by discriminate.
  assert (H1 : int 1 <> NaN) by discriminate.
  destruct (num_lt c (int 0)) eqn:E0, (num_lt (int 1) c) eqn:E1; cbn.
  - destruct (num_le (int 0) c) eqn:L0; [|reflexivity].
    apply (num_lt_false_le Hc H0) in L0. congruence.
  - destruct (num_le (int 0) c) eqn:L0; [|reflexivity].
    apply (num_lt_false_le Hc H0) in L0. congruence.
  - destruct (num_le c (int 1)) eqn:L1; [|now rewrite andb_false_r].
    apply (num_lt_false_le H1 Hc) in L1. congruence.
  - apply (num_lt_false_le Hc H0) in E0. apply (num_lt_false_le H1 Hc) in E1.
    now rewrite E0, E1.
Qed.

(* ====================================================================== *)
(** ** The knowledge assessment *)
(* ====================================================================== *)


(* ====================================================================== *)
(** ** Matches of a line-local regular expression stay on their line *)
(* ====================================================================== *)

Lemma flat_map_ext_In {A B : Type} (f g : A -> list B) (l : list A) :
  (forall a, In a l -> f a = g a) -> flat_map f l = flat_map g l.
Proof.
  induction l as [|a l IH]; intros H; cbn; [reflexivity|].
  rewrite (H a) by now left. rewrite IH; [reflexivity|].
  intros b Hb. apply H. now right.
Qed.

Lemma flat_map_map_in {A B C : Type} (f : A -> B) (g : B -> list C)
      (l : list A) :
  flat_map g (map f l) = flat_map (fun a => g (f a)) l.
Proof. induction l as [|a l IH]; cbn; [reflexivity | now rewrite IH]. Qed.

Lemma map_flat_map_out {A B C : Type} (f : B -> C) (g : A -> list B)
      (l : list A) :
  map f (flat_map g l) = flat_map (fun a => map f (g a)) l.
Proof.
  induction l as [|a l IH]; cbn; [reflexivity|].
  now rewrite map_app, IH.
Qed.

Section Engine.

Lemma suffix_of_length (s rem : jsstring) :
  suffix_of s rem -> List.length rem <= List.length s.
Proof. intros [pre ->]. rewrite length_app. lia. Qed.

Lemma suffix_of_trans (s mid rem : jsstring) :
  suffix_of s mid -> suffix_of mid rem -> suffix_of s rem.
Proof. intros [p ->] [q ->]. exists (p ++ q). now rewrite app_assoc. Qed.

Lemma suffix_of_no_LF (s rem : jsstring) :
  suffix_of s rem -> ~ In LF s -> ~ In LF rem.
Proof. intros [pre ->] H Hin. apply H, in_or_app. now right. Qed.

Lemma iterate_suffix (step : jsstring -> list jsstring) :
  (forall s rem, In rem (step s) -> suffix_of s rem) ->
  forall hi lo s rem, In rem (iterate step lo hi s) -> suffix_of s rem.
Proof.
  intros Hstep. induction hi as [|hi IH]; intros lo s rem; cbn.
  - destruct (Nat.eqb lo 0); cbn; [|contradiction].
    intros [<-|[]]. now exists [].
  - rewrite in_app_iff, in_flat_map. intros [(mid & Hm & Hr)|H].
    + eapply suffix_of_trans; [apply (Hstep _ _ Hm) | apply (IH _ _ _ Hr)].
    + destruct (Nat.eqb lo 0); cbn in H; [|contradiction].
      destruct H as [<-|[]]. now exists [].
Qed.

Lemma matches_suffix (r : regex) :
  forall s rem, In rem (matches r s) -> suffix_of s rem.
Proof.
  induction r as [p|r1 IH1 r2 IH2|r IH lo hi|r IH]; intros s rem; cbn.
  - destruct s as [|c s]; [contradiction|].
    destruct (p c); cbn; [|contradiction]. intros [<-|[]]. now exists [c].
  - rewrite in_flat_map. intros (mid & Hm & Hr).
    eapply suffix_of_trans; [apply (IH1 _ _ Hm) | apply (IH2 _ _ Hr)].
  - apply iterate_suffix, IH.
  - apply iterate_suffix, IH.
Qed.

Lemma matches_shrink (r : regex) :
  consuming r = true ->
  forall s rem, In rem (matches r s) -> List.length rem < List.length s.
Proof.
  induction r as [p|r1 IH1 r2 IH2|r IH lo hi|r IH]; cbn; intros Hc s rem.
  - destruct s as [|c s]; [contradiction|].
    destruct (p c); cbn; [|contradiction]. intros [<-|[]]. lia.
  - rewrite in_flat_map. intros (mid & Hm & Hr).
    pose proof (suffix_of_length (matches_suffix _ _ _ Hm)).
    pose proof (suffix_of_length (matches_suffix _ _ _ Hr)).
    apply orb_true_iff in Hc. destruct Hc as [Hc|Hc].
    + specialize (IH1 Hc _ _ Hm). lia.
    + specialize (IH2 Hc _ _ Hr). lia.
  - apply andb_true_iff in Hc. destruct Hc as [Hc Hlo].
    destruct lo as [|lo]; [discriminate|].
    destruct hi as [|hi]; cbn; [contradiction|].
    rewrite app_nil_r, in_flat_map. intros (mid & Hm & Hr).
    specialize (IH Hc _ _ Hm).
    pose proof (suffix_of_length
                  (iterate_suffix _ (matches_suffix r) _ _ _ _ Hr)).
    lia.
  - discriminate.
Qed.

(** Once the bound of a star exceeds the length of the input it no longer
    matters. *)
Lemma iterate_bound (step : jsstring -> list jsstring) :
  (forall s rem, In rem (step s) -> List.length rem < List.length s) ->
  forall h1 h2 s,
    List.length s <= h1 -> List.length s <= h2 ->
    iterate step 0 h1 s = iterate step 0 h2 s.
Proof.
  intros Hstep.
  assert (Hnil : step [] = []).
  { destruct (step []) as [|x l] eqn:E; [reflexivity|].
    specialize (Hstep [] x). rewrite E in Hstep.
    specialize (Hstep (or_introl eq_refl)). cbn in Hstep. lia. }
  induction h1 as [|h1 IH]; intros h2 s H1 H2.
  - destruct s; [|cbn in H1; lia].
    destruct h2; cbn; [reflexivity | now rewrite Hnil].
  - destruct h2 as [|h2].
    + destruct s; [|cbn in H2; lia]. cbn. now rewrite Hnil.
    + cbn. f_equal. apply flat_map_ext_In. intros rem Hr.
      specialize (Hstep _ _ Hr). apply IH; lia.
Qed.

Variable t : jsstring.

Lemma iterate_local (step : jsstring -> list jsstring) :
  (forall s rem, In rem (step s) -> suffix_of s rem) ->
  (forall l, ~ In LF l -> step (l ++ LF :: t) = map (rejoin t) (step l)) ->
  forall hi lo l,
    ~ In LF l ->
    iterate step lo hi (l ++ LF :: t) = map (rejoin t) (iterate step lo hi l).
Proof.
  intros Hsuf Hstep. induction hi as [|hi IH]; intros lo l Hl; cbn.
  - now destruct (Nat.eqb lo 0).
  - rewrite (Hstep l Hl), flat_map_map_in, map_app, map_flat_map_out.
    f_equal; [|now destruct (Nat.eqb lo 0)].
    apply flat_map_ext_In. intros rem Hr. apply IH.
    exact (suffix_of_no_LF (Hsuf _ _ Hr) Hl).
Qed.

Lemma matches_local (r : regex) :
  line_local r = true ->
  forall l, ~ In LF l -> matches r (l ++ LF :: t) = map (rejoin t) (matches r l).
Proof.
  induction r as [p|r1 IH1 r2 IH2|r IH lo hi|r IH]; cbn; intros Hr l Hl.
  - apply negb_true_iff in Hr. destruct l as [|c l]; cbn.
    + now rewrite Hr.
    + now destruct (p c).
  - apply andb_true_iff in Hr. destruct Hr as [Hr1 Hr2].
    rewrite (IH1 Hr1 l Hl), flat_map_map_in, map_flat_map_out.
    apply flat_map_ext_In. intros rem Hrem. apply (IH2 Hr2).
    exact (suffix_of_no_LF (matches_suffix _ _ _ Hrem) Hl).
  - apply iterate_local; [apply matches_suffix | apply IH, Hr | exact Hl].
  - apply andb_true_iff in Hr. destruct Hr as [Hr Hc].
    rewrite iterate_local;
      [|apply matches_suffix | apply IH, Hr | exact Hl].
    f_equal. apply iterate_bound; [apply matches_shrink, Hc | | lia].
    rewrite length_app. lia.
Qed.

Lemma exec_local (r : regex) (l : jsstring) :
  line_local r = true -> ~ In LF l ->
  exec r (l ++ LF :: t) = option_map (rejoin t) (exec r l).
Proof.
  intros Hr Hl. unfold exec. rewrite (matches_local _ Hr _ Hl).
  now destruct (matches r l).
Qed.

End Engine.

Lemma exec_suffix (r : regex) (s rest : jsstring) :
  exec r s = Some rest -> suffix_of s rest.
Proof.
  unfold exec. intros H. apply (matches_suffix r).
  destruct (matches r s); [discriminate|]. injection H as ->. now left.
Qed.

(* ====================================================================== *)
(** ** Erasing matches commutes with splitting into lines *)
(* ====================================================================== *)

Section Erase.
Variable r : regex.

Lemma remove_all_fuel :
  forall n1 n2 s,
    List.length s <= n1 -> List.length s <= n2 ->
    remove_all n1 r s = remove_all n2 r s.
Proof.
  induction n1 as [|n1 IH]; intros n2 s H1 H2.
  - destruct s; [|cbn in H1; lia]. now destruct n2.
  - destruct n2 as [|n2]; [destruct s; [reflexivity | cbn in H2; lia]|].
    destruct s as [|c s]; [reflexivity|]. cbn [remove_all].
    cbn in H1, H2.
    destruct (exec r (c :: s)) as [rest|];
      [destruct (Nat.ltb (List.length rest) (List.length (c :: s))) eqn:E|].
    + apply Nat.ltb_lt in E. cbn in E. apply IH; lia.
    + f_equal. apply IH; lia.
    + f_equal. apply IH; lia.
Qed.

Lemma erase_nil : erase r [] = [].
Proof. reflexivity. Qed.

Lemma erase_cons (c : code_unit) (s : jsstring) :
  erase r (c :: s)
  = match exec r (c :: s) with
    | Some rest =>
        if Nat.ltb (List.length rest) (List.length (c :: s))
        then erase r rest else c :: erase r s
    | None => c :: erase r s
    end.
Proof.
  unfold erase. cbn [List.length remove_all].
  destruct (exec r (c :: s)) as [rest|]; [|reflexivity].
  destruct (Nat.ltb (List.length rest) (S (List.length s))) eqn:E;
    [|reflexivity].
  apply Nat.ltb_lt in E. apply remove_all_fuel; lia.
Qed.

(** Erasing only deletes. *)
Lemma erase_keeps_out (x : code_unit) :
  forall n s, List.length s <= n -> ~ In x s -> ~ In x (erase r s).
Proof.
  induction n as [|n IH]; intros s Hn Hs.
  - destruct s; [exact Hs | cbn in Hn; lia].
  - destruct s as [|c s]; [exact Hs|]. rewrite erase_cons. cbn in Hn.
    assert (Htail : ~ In x (c :: erase r s)).
    { intros [->|H]; [apply Hs; now left|].
      revert H. apply IH; [lia|]. intros H. apply Hs. now right. }
    destruct (exec r (c :: s)) as [rest|] eqn:Ex; [|exact Htail].
    destruct (Nat.ltb (List.length rest) (List.length (c :: s))) eqn:E;
      [|exact Htail].
    apply Nat.ltb_lt in E. cbn in E. apply IH; [lia|].
    destruct (exec_suffix _ _ Ex) as [pre Hpre]. intros H. apply Hs.
    rewrite Hpre. apply in_or_app. now right.
Qed.

Hypothesis local : line_local r = true.

(** A line is erased on its own: what follows the line feed has no say. *)
Lemma erase_line (t : jsstring) :
  forall n l,
    List.length l <= n -> ~ In LF l ->
    erase r (l ++ LF :: t) = erase r l ++ LF :: erase r t.
Proof.
  induction n as [|n IH]; intros l Hn Hl.
  - destruct l; [|cbn in Hn; lia]. cbn [app]. rewrite erase_cons, erase_nil.
    change (LF :: t) with ([] ++ LF :: t) at 1.
    rewrite (exec_local t r [] local Hl).
    destruct (exec r []) as [rest|] eqn:Ex; cbn [option_map]; [|reflexivity].
    destruct (exec_suffix _ _ Ex) as [pre Hpre].
    symmetry in Hpre. apply app_eq_nil in Hpre. destruct Hpre as [_ ->].
    unfold rejoin. cbn [app]. now rewrite Nat.ltb_irrefl.
  - destruct l as [|c l]; [apply IH; [cbn; lia | exact Hl]|].
    cbn in Hn. cbn [app]. rewrite !erase_cons.
    change (c :: l ++ LF :: t) with ((c :: l) ++ LF :: t).
    rewrite (exec_local t r (c :: l) local Hl).
    assert (Hl' : ~ In LF l) by (intros H; apply Hl; now right).
    assert (Htail : c :: erase r (l ++ LF :: t)
                    = (c :: erase r l) ++ LF :: erase r t)
      by (cbn [app]; f_equal; apply IH; [lia | exact Hl']).
    destruct (exec r (c :: l)) as [rest|] eqn:Ex; cbn [option_map];
      [|exact Htail].
    assert (Hb : forall a b : jsstring,
               Nat.ltb (List.length (a ++ LF :: t))
                       (List.length (b ++ LF :: t))
               = Nat.ltb (List.length a) (List.length b)).
    { intros a b. rewrite !length_app. cbn [List.length].
      destruct (Nat.ltb (List.length a) (List.length b)) eqn:E;
        [apply Nat.ltb_lt; apply Nat.ltb_lt in E
        |apply Nat.ltb_ge; apply Nat.ltb_ge in E]; lia. }
    unfold rejoin. rewrite Hb. cbn [List.length].
    destruct (Nat.ltb (List.length rest) (S (List.length l))) eqn:E;
      [|exact Htail].
    apply Nat.ltb_lt in E. apply IH; [lia|].
    exact (suffix_of_no_LF (exec_suffix _ _ Ex) Hl).
Qed.

Lemma split_lines_nonempty (s : jsstring) : split_lines s <> [].
Proof.
  destruct s as [|c s]; cbn; [discriminate|].
  destruct (N.eqb c LF); [discriminate|].
  destruct (split_lines s); discriminate.
Qed.

Lemma split_lines_one (l : jsstring) : ~ In LF l -> split_lines l = [l].
Proof.
  induction l as [|c l IH]; intros H; cbn; [reflexivity|].
  destruct (N.eqb c LF) eqn:E.
  - apply N.eqb_eq in E. elim H. now left.
  - rewrite IH; [reflexivity|]. intros Hin. apply H. now right.
Qed.

Lemma split_lines_first (l t : jsstring) :
  ~ In LF l -> split_lines (l ++ LF :: t) = l :: split_lines t.
Proof.
  induction l as [|c l IH]; intros H; cbn.
  - reflexivity.
  - destruct (N.eqb c LF) eqn:E.
    + apply N.eqb_eq in E. elim H. now left.
    + rewrite IH; [reflexivity|]. intros Hin. apply H. now right.
Qed.

(** A text is one line, or a first line, a line feed and the rest. *)
Lemma first_line (s : jsstring) :
  ~ In LF s
  \/ exists l t, s = l ++ LF :: t /\ ~ In LF l
                 /\ List.length t < List.length s.
Proof.
  induction s as [|c s IH]; [now left|].
  destruct (N.eqb c LF) eqn:E.
  - apply N.eqb_eq in E. subst c. right. exists [], s. cbn.
    split; [reflexivity|]. split; [tauto | lia].
  - apply N.eqb_neq in E. destruct IH as [H|(l & t & -> & Hl & Hlen)].
    + left. intros [Hc|Hin]; [congruence | contradiction].
    + right. exists (c :: l), t. split; [reflexivity|]. split.
      * intros [Hc|Hin]; [congruence | contradiction].
      * cbn. rewrite length_app in *. cbn in *. lia.
Qed.

Lemma erase_split_lines :
  forall n s,
    List.length s <= n ->
    split_lines (erase r s) = map (erase r) (split_lines s).
Proof.
  induction n as [|n IH]; intros s Hn.
  - destruct s; [reflexivity | cbn in Hn; lia].
  - destruct (first_line s) as [H|(l & t & -> & Hl & Hlen)].
    + rewrite (split_lines_one s) by exact H. cbn [map].
      apply split_lines_one. eapply erase_keeps_out; [exact Hn | exact H].
    + rewrite (@erase_line t (List.length l) l (le_n _) Hl).
      rewrite (split_lines_first l t) by exact Hl. cbn [map].
      rewrite split_lines_first.
      * f_equal. apply IH. lia.
      * eapply erase_keeps_out; [apply le_n | exact Hl].
Qed.

End Erase.

Lemma ansiRegex_line_local : line_local ansiRegex = true.
Proof. reflexivity. Qed.

(** Splitting into lines and stripping each line gives the lines of the
    stripped text. *)
Lemma stripAnsi_split_lines (s : jsstring) :
  map stripAnsi (split_lines s) = split_lines (stripAnsi s).
Proof.
  symmetry.
  eapply erase_split_lines; [exact ansiRegex_line_local | apply le_n].
Qed.

(* ====================================================================== *)
(** ** The width of the frame *)
(* ====================================================================== *)

Lemma max_list_app (l1 l2 : list nat) :
  max_list (l1 ++ l2) = Nat.max (max_list l1) (max_list l2).
Proof.
  induction l1 as [|x l1 IH]; cbn; [reflexivity|].
  unfold max_list in *. rewrite IH. lia.
Qed.


Lemma max_list_attained (l : list nat) : l <> [] -> In (max_list l) l.
Proof.
  induction l as [|x l IH]; [congruence|]. intros _.
  destruct l as [|y l].
  - left. cbn. lia.
  - specialize (IH ltac:(discriminate)).
    change (max_list (x :: y :: l)) with (Nat.max x (max_list (y :: l))).
    destruct (Nat.max_spec x (max_list (y :: l))) as [[_ ->]|[_ ->]];
      [now right | now left].
Qed.

(** The lines of a block count with the length they have once stripped. *)
Lemma block_width (b : jsstring) :
  max_list (map (fun l => List.length (stripAnsi l)) (split_lines b))
  = visible_width b.
Proof.
  unfold visible_width. now rewrite <- stripAnsi_split_lines, map_map.
Qed.

Section Width.
Context {platform : Platform}.

Lemma maxWidth_with_thought (td : ThoughtData) (t : jsstring) :
  maxWidth (with_thought td t)
  = Nat.max (List.length (stripAnsi (header_of td)))
      (Nat.max (visible_width t)
         (max_list
            (map (fun l => List.length (stripAnsi l))
               (flat_map split_lines
                  (filter str_truthy
                     [confidenceLine td; knowledgeLines td]))))).
Proof.
  unfold maxWidth, allLinesForWidth, coreContentLines.
  change (header_of (with_thought td t)) with (header_of td).
  change (confidenceLine (with_thought td t)) with (confidenceLine td).
  change (knowledgeLines (with_thought td t)) with (knowledgeLines td).
  change (thought (with_thought td t)) with t.
  cbn [map max_list fold_right]. fold (max_list).
  f_equal.
  replace (filter str_truthy [t; confidenceLine td; knowledgeLines td])
    with ((if str_truthy t then [t] else [])
          ++ filter str_truthy [confidenceLine td; knowledgeLines td])
    by (cbn [filter]; now destruct (str_truthy t)).
  rewrite flat_map_app, map_app, max_list_app. f_equal.
  destruct t as [|c t]; [reflexivity|].
  cbn [str_truthy flat_map]. rewrite app_nil_r. apply block_width.
Qed.

(** Two Steps that differ only in control sequences inside their thought
    get the same computed width. *)
Lemma maxWidth_ignores_control_sequences (td : ThoughtData)
      (t1 t2 : jsstring) :
  stripAnsi t1 = stripAnsi t2 ->
  maxWidth (with_thought td t1) = maxWidth (with_thought td t2).
Proof.
  intros H. rewrite !maxWidth_with_thought. unfold visible_width.
  now rewrite H.
Qed.

End Width.

(* ====================================================================== *)
(** ** Further properties of [processThought] *)
(* ====================================================================== *)

(** X1. [processThought] never throws: in every state and for every input
    the [try] block either runs to its end or is caught, and the reply is a
    success without [isError] or a failure with [isError] true. *)
Theorem processThought_never_throws (platform : Platform) :
  forall (input : JsVal) (w : World),
  exists r,
    fst (processThought input w) = Returned r
    /\ match content r, isError r with
       | success _, None => True
       | failed _, Some true => True
       | _, _ => False
       end.
Proof.
  intros input w.
  destruct (processThought_replies input w) as (r & w' & H & Hs).
  exists r. rewrite H. split; [reflexivity|].
  unfold is_success, is_failure in Hs.
  destruct (content r), (isError r) as [[|]|]; destruct Hs; try discriminate;
    exact I.
Qed.

(** X2. A call whose input the validator rejects changes neither the
    history nor the branches, writes one line to the console (the error),
    and replies with the message of what the validator threw. *)
Theorem rejected_input_only_logs (platform : Platform) :
  forall (input : JsVal) (w : World) (e : Thrown),
    result_of (validateThoughtData input) = Threw e ->
    processThought input w
    = (Returned {| content := failed (message e); isError := Some true |},
       {| thoughtHistory := thoughtHistory w;
          branches := branches w;
          console := console w ++ [error_processing (message e)] |}).
Proof. intros input w e E. exact (process_rejected input w E). Qed.

Lemma rejected_input_only_logs_witness :
  @processThought plain_platform (object []) fresh
  = (Returned {| content := failed (message Invalid_thought);
                 isError := Some true |},
     {| thoughtHistory := [];
        branches := [];
        console := [error_processing (message Invalid_thought)] |}).
Proof.
  exact (@rejected_input_only_logs plain_platform (object []) fresh
           Invalid_thought eq_refl).
Defined.

(** X3. A success reply is given only to an input that passes validation;
    the call then added exactly one Step to the history, and the reply's
    [total_history_length] is the new length and its [active_branches] the
    keys of the branches after the call. *)
Theorem success_means_one_more_step (platform : Platform) :
  forall (input : JsVal) (w w' : World) (r : ToolResult) (p : SuccessPayload),
    processThought input w = (Returned r, w') ->
    content r = success p ->
    (exists td, result_of (validateThoughtData input) = Returned td
                /\ thoughtHistory w' = thoughtHistory w ++ [adjusted td])
    /\ total_history_length p = S (List.length (thoughtHistory w))
    /\ active_branches p = Object_keys (branches w').
Proof.
  intros input w w' r p H Hp.
  destruct (success_grows_history _ _ H Hp) as (Hv & Hl & Ht).
  unfold passes in Hv.
  destruct (result_of (validateThoughtData input)) as [td|e] eqn:E;
    [|discriminate].
  split; [|split].
  - exists td. split; [reflexivity|].
    pose proof (process_history input w) as Hh.
    now rewrite H, E in Hh.
  - congruence.
  - now destruct (success_reports_adjusted _ _ E H Hp) as (_ & _ & _ & ->).
Qed.

Lemma success_means_one_more_step_witness :
  exists r p,
    fst (@processThought plain_platform (branch_input 2 "A") fresh)
    = Returned r
    /\ content r = success p
    /\ total_history_length p = 1
    /\ active_branches p
       = Object_keys
           (branches
              (snd (@processThought plain_platform (branch_input 2 "A")
                      fresh))).
Proof.
  eexists; eexists. split; [vm_compute; reflexivity|].
  split; [reflexivity|].
  eapply proj2.
  eapply (@success_means_one_more_step plain_platform (branch_input 2 "A")
            fresh).
  - vm_compute. reflexivity.
  - reflexivity.
Defined.

(** X5. An input that is not an object never reaches the store: [null] and
    [undefined] make the first property read throw a TypeError, any other
    value (a number, a string, a boolean, an array) has no [thought]; in
    each case the reply is a failure carrying that error's message, and
    history and branches are as before. *)
Theorem non_object_input_fails (platform : Platform) :
  forall (input : JsVal) (w : World),
    (forall props, input <> JObj props) ->
    processThought input w
    = (Returned (failure (error_for_non_object input)),
       w_log w [error_processing (message (error_for_non_object input))]).
Proof.
  intros input w Hn. apply process_rejected.
  destruct input; try reflexivity. now elim (Hn props).
Qed.

Lemma non_object_input_fails_witness :
  @processThought plain_platform JNull fresh
  = (Returned (failure (TypeError_read true "thought")),
     w_log fresh [error_processing
                    (lit "Cannot read properties of null (reading 'thought')")])
  /\ @processThought plain_platform (JArr [text "a thought"]) fresh
     = (Returned (failure Invalid_thought),
        w_log fresh [error_processing (message Invalid_thought)]).
Proof.
  split.
  - exact (@non_object_input_fails plain_platform JNull fresh
             ltac:(discriminate)).
  - exact (@non_object_input_fails plain_platform (JArr [text "a thought"])
             fresh ltac:(discriminate)).
Defined.

(* ---------------------------------------------------------------------- *)
(** *** The store over a sequence of calls *)
(* ---------------------------------------------------------------------- *)

Section Sequences.
Context {platform : Platform}.

Lemma run_app (l1 l2 : list JsVal) (w : World) :
  run (l1 ++ l2) w = run l2 (run l1 w).
Proof. unfold run. apply fold_left_app. Qed.

Lemma filed_under_key (td : ThoughtData) (k : jsstring) (from : JsNum)
      (id : jsstring) :
  branch_key td = Some (k, from) -> filed_under id td = str_eqb k id.
Proof. unfold filed_under. now intros ->. Qed.

Lemma filter_snoc {A : Type} (f : A -> bool) (l : list A) (a : A) :
  filter f (l ++ [a]) = filter f l ++ (if f a then [a] else []).
Proof. rewrite filter_app. cbn. now destruct (f a). Qed.

Lemma assoc_snoc_other {A : Type} (k id : jsstring) (v : A)
      (l : list (jsstring * A)) :
  id <> k -> assoc id (l ++ [(k, v)]) = assoc id l.
Proof.
  intros Hne. induction l as [|[k' v'] l IH]; cbn.
  - unfold assoc. now rewrite (proj2 (str_eqb_neq id k) Hne).
  - unfold assoc in *. fold (@assoc A) in *.
    destruct (str_eqb id k'); [reflexivity | exact IH].
Qed.

(** One call keeps the branches in step with the history. *)
Lemma process_keeps_branches_derived (input : JsVal) (w : World) :
  (forall id, assoc id (branches w)
              = branch_from_history id (thoughtHistory w)) ->
  forall id,
    assoc id (branches (snd (processThought input w)))
    = branch_from_history id (thoughtHistory (snd (processThought input w))).
Proof.
  intros Inv id. rewrite process_history.
  destruct (result_of (validateThoughtData input)) as [td|e] eqn:E.
  2:{ rewrite (process_rejected _ w E). apply Inv. }
  rewrite (process_branches _ w E), track_branch_run.
  cbn [branches pushed]. unfold branch_from_history.
  rewrite filter_snoc.
  destruct (branch_key (adjusted td)) as [[k from]|] eqn:Hk.
  - rewrite (filed_under_key _ id Hk).
    pose proof (Inv k) as Ik. unfold branch_from_history in Ik.
    destruct (str_eqb k id) eqn:Ekid.
    + apply str_eqb_eq in Ekid. subst id.
      destruct (assoc k (branches w)) as [steps|] eqn:Ea.
      * cbn [snd branches]. rewrite assoc_set_same.
        destruct (inherited k); [discriminate|].
        destruct (filter (filed_under k) (thoughtHistory w)) as [|s0 ss];
          [discriminate|].
        injection Ik as ->. reflexivity.
      * destruct (inherited k) eqn:Ei.
        -- cbn [snd]. exact Ea.
        -- cbn [snd branches].
           rewrite <- (assoc_set_absent _ _ _ Ea), assoc_set_same.
           destruct (filter (filed_under k) (thoughtHistory w));
             [reflexivity | discriminate].
    + apply str_eqb_neq in Ekid. rewrite app_nil_r.
      assert (Hne : id <> k) by congruence.
      destruct (assoc k (branches w)) as [steps|] eqn:Ea.
      * cbn [snd branches]. rewrite (assoc_set_other _ _ Hne). apply Inv.
      * destruct (inherited k); cbn [snd branches].
        -- apply Inv.
        -- rewrite (assoc_snoc_other _ _ Hne). apply Inv.
  - unfold filed_under at 2. rewrite Hk, app_nil_r. cbn [snd]. apply Inv.
Qed.

End Sequences.

(** X7. The history is an append-only record of the accepted inputs: after
    any sequence of calls it is the history before, followed by one Step
    (the validated input with its total adjusted) for each input that
    passes validation, in call order, whether or not the call went on to
    succeed. *)
Theorem history_records_accepted_inputs (platform : Platform) :
  forall (inputs : list JsVal) (w : World),
    thoughtHistory (run inputs w)
    = thoughtHistory w ++ flat_map step_of inputs.
Proof.
  induction inputs as [|input rest IH]; intros w; cbn [run fold_left flat_map].
  - now rewrite app_nil_r.
  - change (fold_left _ rest ?x) with (run rest x).
    rewrite IH, process_history. unfold step_of.
    destruct (result_of (validateThoughtData input));
      now rewrite <- ?app_assoc.
Qed.

(** X6. Branches are derived from the history: in every state reached from
    a fresh instance, the sequence held under an identifier is exactly the
    sub-sequence of the history made of the Steps with that non-empty
    [branchId] and a [branchFromThought], and there is a branch for an
    identifier exactly when that sub-sequence is not empty and the
    identifier is not the name of a property inherited from the object
    prototype (for those no branch is ever created). *)
Theorem branches_derived_from_history (platform : Platform) :
  forall (inputs : list JsVal) (id : jsstring),
    assoc id (branches (run inputs fresh))
    = if inherited id then None
      else match filter (filed_under id) (thoughtHistory (run inputs fresh))
           with
           | [] => None
           | steps => Some steps
           end.
Proof.
  intros inputs.
  change (forall id, assoc id (branches (run inputs fresh))
                     = branch_from_history id
                         (thoughtHistory (run inputs fresh))).
  induction inputs as [|input rest IH] using rev_ind.
  - intros id. cbn. unfold branch_from_history. cbn.
    now destruct (inherited id).
  - rewrite run_app. cbn [run fold_left].
    now apply process_keeps_branches_derived.
Qed.

(* ====================================================================== *)
(** ** Further properties of [validateThoughtData] *)
(* ====================================================================== *)

(** The outcome of the validator, check after check. *)
Lemma validate_result (input : JsVal) :
  result_of (validateThoughtData input)
  = match result_of (required_thought input) with
    | Threw e => Threw e
    | Returned th =>
    match result_of (required_positive_integer input "thoughtNumber"
                       Invalid_thoughtNumber) with
    | Threw e => Threw e
    | Returned tn =>
    match result_of (required_positive_integer input "totalThoughts"
                       Invalid_totalThoughts) with
    | Threw e => Threw e
    | Returned total =>
    match result_of (required_boolean input "nextThoughtNeeded"
                       Invalid_nextThoughtNeeded) with
    | Threw e => Threw e
    | Returned next =>
    match result_of (optional_confidence_score input) with
    | Threw e => Threw e
    | Returned score =>
    match result_of (optional_knowledge_assessment input) with
    | Threw e => Threw e
    | Returned ka =>
        Returned
          {| thought := th;
             thoughtNumber := tn;
             totalThoughts := total;
             nextThoughtNeeded := next;
             confidence_score := score;
             knowledge_assessment := ka;
             isRevision := boolean_or_undefined (field input "isRevision");
             revisesThought :=
               positive_integer (field input "revisesThought");
             branchFromThought :=
               positive_integer (field input "branchFromThought");
             branchId := string_or_undefined (field input "branchId") |}
    end end end end end end.
Proof.
  unfold result_of at 1. unfold validateThoughtData.
  rewrite (bind_stateless _ _ (stateless_required_thought _)).
  destruct (result_of (required_thought input)); [|reflexivity].
  rewrite (bind_stateless _ _ (stateless_required_positive_integer _ _ _)).
  destruct (result_of (required_positive_integer input "thoughtNumber" _));
    [|reflexivity].
  rewrite (bind_stateless _ _ (stateless_required_positive_integer _ _ _)).
  destruct (result_of (required_positive_integer input "totalThoughts" _));
    [|reflexivity].
  rewrite (bind_stateless _ _ (stateless_required_boolean _ _ _)).
  destruct (result_of (required_boolean input "nextThoughtNeeded" _));
    [|reflexivity].
  rewrite (bind_stateless _ _ (stateless_optional_confidence_score _)).
  destruct (result_of (optional_confidence_score input)); [|reflexivity].
  rewrite (bind_stateless _ _ (stateless_optional_knowledge_assessment _)).
  destruct (result_of (optional_knowledge_assessment input)); [|reflexivity].
  unfold bind. now rewrite warnings_run.
Qed.

Lemma required_thought_result props :
  result_of (required_thought (JObj props))
  = match field (JObj props) "thought" with
    | JStr (c :: s) => Returned (c :: s)
    | _ => Threw Invalid_thought
    end.
Proof.
  unfold result_of, required_thought, bind, read_first. cbn.
  destruct (field (JObj props) "thought") as [ | | | |[|c s]| | ];
    reflexivity.
Qed.

Lemma required_positive_integer_result data k e :
  result_of (required_positive_integer data k e)
  = match positive_integer (field data k) with
    | Some n => Returned n
    | None => Threw e
    end.
Proof.
  unfold result_of, required_positive_integer, positive_integer.
  destruct (field data k) as [ | | |n| | | ]; try reflexivity.
  destruct (isInteger n) eqn:Hi; cbn; [|reflexivity].
  destruct (isInteger_finite _ Hi) as [q ->].
  unfold num_ge, num_lt, num_le, int, Q_ltb, Q_leb.
  destruct (Z.ltb _ _) eqn:E1, (Z.leb _ _) eqn:E2; try reflexivity;
    [apply Z.ltb_lt in E1; apply Z.leb_le in E2
    |apply Z.ltb_ge in E1; apply Z.leb_gt in E2]; lia.
Qed.

Lemma optional_confidence_score_result data :
  result_of (optional_confidence_score data)
  = if confidence_let_through (field data "confidence_score")
    then Returned match field data "confidence_score" with
                  | JNum c => Some c
                  | _ => None
                  end
    else Threw Invalid_confidence_score.
Proof.
  unfold result_of, optional_confidence_score, confidence_let_through.
  destruct (field data "confidence_score") as [ | | |c| | | ];
    try reflexivity.
  now destruct (num_lt c (int 0)), (num_gt c (int 1)).
Qed.

Lemma required_boolean_result data k e :
  result_of (required_boolean data k e)
  = match field data k with
    | JBool b => Returned b
    | _ => Threw e
    end.
Proof.
  unfold result_of, required_boolean. now destruct (field data k).
Qed.

Ltac first_failure :=
  split;
  [ let H := fresh in
    intros H; cbn in H; first [reflexivity | congruence]
  | first [ let H := fresh in intros H; cbn in H; exfalso; congruence
          | idtac ] ].

(** X4. The validator reports the first failure in source order, and only
    the six checked fields can fail: for an object, a [thought] that is not
    a non-empty string gives the [thought] error whatever else the input
    holds; with a good [thought], a [thoughtNumber] that is not a positive
    integer gives the [thoughtNumber] error; then [totalThoughts], then
    [nextThoughtNeeded], then [confidence_score], then what the check of
    [knowledge_assessment] throws; and when these six pass the input is
    accepted, whatever [isRevision], [revisesThought], [branchFromThought],
    [branchId] and [needsMoreThoughts] hold. *)
Theorem validator_reports_first_failure :
  forall props : list (jsstring * JsVal),
    let input := JObj props in
    let outcome := result_of (validateThoughtData input) in
    (nonempty_string (field input "thought") = false ->
     outcome = Threw Invalid_thought)
    /\ (nonempty_string (field input "thought") = true ->
        (positive_integer (field input "thoughtNumber") = None ->
         outcome = Threw Invalid_thoughtNumber)
        /\ (positive_integer (field input "thoughtNumber") <> None ->
            (positive_integer (field input "totalThoughts") = None ->
             outcome = Threw Invalid_totalThoughts)
            /\ (positive_integer (field input "totalThoughts") <> None ->
                (is_type (field input "nextThoughtNeeded") t_boolean = false ->
                 outcome = Threw Invalid_nextThoughtNeeded)
                /\ (is_type (field input "nextThoughtNeeded") t_boolean = true ->
                    (confidence_let_through (field input "confidence_score")
                     = false ->
                     outcome = Threw Invalid_confidence_score)
                    /\ (confidence_let_through
                          (field input "confidence_score") = true ->
                        (forall e,
                            result_of (optional_knowledge_assessment input)
                            = Threw e ->
                            outcome = Threw e)
                        /\ (passes (optional_knowledge_assessment input)
                            = true ->
                            exists td, outcome = Returned td)))))).
Proof.
  intros props input outcome. subst outcome.
  rewrite validate_result. subst input.
  rewrite required_thought_result, !required_positive_integer_result,
    required_boolean_result, optional_confidence_score_result.
  unfold nonempty_string.
  destruct (field (JObj props) "thought") as [ | | | |[|c s]| | ];
    first_failure.
  intros _.
  destruct (positive_integer (field (JObj props) "thoughtNumber"));
    first_failure.
  intros _.
  destruct (positive_integer (field (JObj props) "totalThoughts"));
    first_failure.
  intros _.
  destruct (field (JObj props) "nextThoughtNeeded"); first_failure.
  intros _.
  destruct (confidence_let_through (field (JObj props) "confidence_score"));
    first_failure.
  intros _. unfold passes.
  destruct (result_of (optional_knowledge_assessment (JObj props)));
    split; try discriminate; eauto.
  all: intros; congruence.
Qed.

Lemma validator_reports_first_failure_witness :
  result_of
    (validateThoughtData
       (object [ ("thought", text "a thought");
                 ("thoughtNumber", number 0);
                 ("totalThoughts", text "three");
                 ("confidence_score", number 7) ]%string))
  = Threw Invalid_thoughtNumber.
Proof.
  destruct (validator_reports_first_failure
              (properties [ ("thought", text "a thought");
                            ("thoughtNumber", number 0);
                            ("totalThoughts", text "three");
                            ("confidence_score", number 7) ]%string))
    as [_ H].
  exact (proj1 (H eq_refl) eq_refl).
Defined.

(** X12. The three advisory warnings of an accepted input, and nothing
    else, are what the validator writes: the revision warning exactly when
    [isRevision] is [true] and [revisesThought] is not a positive integer,
    the branch warning exactly when [branchFromThought] is a positive
    integer and [branchId] is not a string, the deprecation warning exactly
    when [needsMoreThoughts] is a boolean; the store is not touched. *)
Theorem validator_warnings :
  forall (input : JsVal) (w w' : World) (td : ThoughtData),
    validateThoughtData input w = (Returned td, w') ->
    thoughtHistory w' = thoughtHistory w
    /\ branches w' = branches w
    /\ exists written,
         console w' = console w ++ written
         /\ (forall c, In c written ->
                       c = warn_revision_without_revisesThought
                       \/ c = warn_branch_without_branchId
                       \/ c = warn_needsMoreThoughts_deprecated)
         /\ (In warn_revision_without_revisesThought written
             <-> field input "isRevision" = JBool true
                 /\ positive_integer (field input "revisesThought") = None)
         /\ (In warn_branch_without_branchId written
             <-> positive_integer (field input "branchFromThought") <> None
                 /\ is_type (field input "branchId") t_string = false)
         /\ (In warn_needsMoreThoughts_deprecated written
             <-> is_type (field input "needsMoreThoughts") t_boolean = true).
Proof.
  intros input w w' td H. apply validate_returns in H.
  destruct H as [[_ _ _ _ _ _ Hir Hrt Hbf Hbi] ->].
  split; [reflexivity|]. split; [reflexivity|].
  exists (advisory input td). split; [reflexivity|].
  unfold advisory, warning_list. rewrite Hir, Hrt, Hbf, Hbi.
  set (b1 := opt_truthy (fun b : bool => b)
               (boolean_or_undefined (field input "isRevision"))
             && is_undefined (positive_integer (field input "revisesThought"))).
  set (b2 := opt_truthy num_truthy
               (positive_integer (field input "branchFromThought"))
             && is_undefined (string_or_undefined (field input "branchId"))).
  set (b3 := negb (is_undefined
                     (boolean_or_undefined
                        (field input "needsMoreThoughts")))).
  assert (E1 : field input "isRevision" = JBool true
               /\ positive_integer (field input "revisesThought") = None
               <-> b1 = true).
  { subst b1.
    destruct (field input "isRevision") as [ | |[|]| | | | ];
      destruct (positive_integer (field input "revisesThought")); cbn;
      split; try tauto; try discriminate; intros [H1 H2]; congruence. }
  assert (E2 : positive_integer (field input "branchFromThought") <> None
               /\ is_type (field input "branchId") t_string = false
               <-> b2 = true).
  { subst b2.
    destruct (positive_integer (field input "branchFromThought")) eqn:E.
    - cbn. rewrite (positive_integer_truthy _ E).
      destruct (field input "branchId"); cbn; split; try tauto;
        try discriminate; try (intros [H1 H2]; congruence);
        intros _; split; congruence.
    - cbn. split; [intros [H1 _]; congruence | discriminate]. }
  assert (E3 : is_type (field input "needsMoreThoughts") t_boolean = true
               <-> b3 = true).
  { subst b3. now destruct (field input "needsMoreThoughts"). }
  rewrite E1, E2, E3. clearbody b1 b2 b3. clear.
  destruct b1, b2, b3; cbn; repeat split; intros;
    repeat match goal with
           | H : _ \/ _ |- _ => destruct H
           | H : False |- _ => destruct H
           end;
    try discriminate; try congruence; auto.
Qed.

Lemma validator_warnings_witness :
  exists written,
    console
      (snd (validateThoughtData
              (with_fields [ ("isRevision", JBool true);
                             ("branchId", text "A");
                             ("needsMoreThoughts", JBool false) ]%string)
              fresh))
    = written
    /\ In warn_revision_without_revisesThought written
    /\ ~ In warn_branch_without_branchId written
    /\ In warn_needsMoreThoughts_deprecated written.
Proof.
  edestruct (@validator_warnings
               (with_fields [ ("isRevision", JBool true);
                              ("branchId", text "A");
                              ("needsMoreThoughts", JBool false) ]%string)
               fresh)
    as (_ & _ & written & Hc & _ & H1 & H2 & H3);
    [vm_compute; reflexivity|].
  exists written. split; [exact Hc|]. split; [|split].
  - apply H1. split; reflexivity.
  - intros H. apply H2 in H. destruct H as [H _]. now apply H.
  - apply H3. reflexivity.
Defined.

Lemma optional_knowledge_assessment_result data :
  result_of (optional_knowledge_assessment data)
  = match field data "knowledge_assessment" with
    | JUndefined => Returned None
    | JArr items =>
        match result_of (map_items items 0) with
        | Returned kas => Returned (Some kas)
        | Threw e => Threw e
        end
    | _ => Threw Invalid_knowledge_assessment
    end.
Proof.
  unfold result_of at 1. unfold optional_knowledge_assessment.
  destruct (field data "knowledge_assessment") as [ | | | | |items| ];
    try reflexivity.
  rewrite (bind_stateless _ _ (stateless_map_items items 0)).
  now destruct (result_of (map_items items 0)).
Qed.

(** X17. The outcome of validation depends on the ten properties of the
    Step and on nothing else in the input: two objects that agree on them
    are both rejected with the same error or both accepted as the same
    Step, whatever other properties (unknown ones, or the deprecated
    [needsMoreThoughts]) either of them has. *)
Theorem validation_reads_step_fields_only :
  forall props1 props2 : list (jsstring * JsVal),
    (forall k, In k step_fields ->
               field (JObj props1) k = field (JObj props2) k) ->
    result_of (validateThoughtData (JObj props1))
    = result_of (validateThoughtData (JObj props2)).
Proof.
  intros props1 props2 H.
  rewrite !validate_result, !required_thought_result,
    !required_positive_integer_result, !required_boolean_result,
    !optional_confidence_score_result, !optional_knowledge_assessment_result.
  rewrite (H "thought"%string), (H "thoughtNumber"%string),
    (H "totalThoughts"%string), (H "nextThoughtNeeded"%string),
    (H "confidence_score"%string), (H "knowledge_assessment"%string),
    (H "isRevision"%string), (H "revisesThought"%string),
    (H "branchFromThought"%string), (H "branchId"%string)
    by (cbn; tauto).
  reflexivity.
Qed.

Lemma validation_reads_step_fields_only_witness :
  result_of (validateThoughtData (JObj with_unknown_property))
  = result_of (validateThoughtData (object (required_fields 5 3))).
Proof.
  apply validation_reads_step_fields_only.
  intros k Hk. cbn in Hk.
  repeat (destruct Hk as [<-|Hk]; [reflexivity|]). contradiction.
Defined.

(* ====================================================================== *)
(** ** The declared input schema and the validator *)
(* ====================================================================== *)







(* ====================================================================== *)
(** ** Further properties of [stripAnsi] *)
(* ====================================================================== *)

Lemma exec_without_introducer (c : code_unit) (s : jsstring) :
  c <> 27%N -> c <> 155%N -> exec ansiRegex (c :: s) = None.
Proof.
  intros H1 H2. unfold exec, ansiRegex. cbn [matches].
  apply N.eqb_neq in H1, H2. now rewrite H1, H2.
Qed.

Lemma erase_plain_prefix (s t : jsstring) :
  without_introducer s ->
  erase ansiRegex (s ++ t) = s ++ erase ansiRegex t.
Proof.
  induction s as [|c s IH]; intros H; [reflexivity|].
  cbn [app]. rewrite erase_cons.
  destruct (H c (or_introl eq_refl)) as [H1 H2].
  rewrite (exec_without_introducer _ H1 H2). f_equal. apply IH.
  intros x Hx. apply H. now right.
Qed.

Lemma erase_length (r : regex) :
  forall n s, List.length s <= n ->
              List.length (erase r s) <= List.length s.
Proof.
  induction n as [|n IH]; intros s Hn.
  - destruct s; [cbn; lia | cbn in Hn; lia].
  - destruct s as [|c s]; [cbn; lia|]. rewrite erase_cons. cbn in Hn.
    assert (Htail : List.length (c :: erase r s) <= List.length (c :: s)).
    { cbn. specialize (IH s ltac:(lia)). lia. }
    destruct (exec r (c :: s)) as [rest|]; [|exact Htail].
    destruct (Nat.ltb (List.length rest) (List.length (c :: s))) eqn:E;
      [|exact Htail].
    apply Nat.ltb_lt in E. cbn in E.
    specialize (IH rest ltac:(lia)). cbn. lia.
Qed.

(** X8. [stripAnsi] only deletes: its result is never longer than the
    text, every code unit of the result is one of the text, and a text
    that holds neither ESC nor CSI comes back unchanged. *)
Theorem stripAnsi_only_deletes :
  (forall s, List.length (stripAnsi s) <= List.length s)
  /\ (forall s x, In x (stripAnsi s) -> In x s)
  /\ (forall s, without_introducer s -> stripAnsi s = s).
Proof.
  split; [|split].
  - intros s. eapply erase_length. apply le_n.
  - intros s x Hx.
    destruct (in_dec N.eq_dec x s) as [Hin|Hout]; [exact Hin|].
    exfalso. revert Hx. eapply erase_keeps_out; [apply le_n | exact Hout].
  - intros s H. unfold stripAnsi.
    rewrite <- (app_nil_r s) at 1. rewrite (erase_plain_prefix [] H).
    now rewrite erase_nil, app_nil_r.
Qed.

Lemma stripAnsi_only_deletes_witness :
  In 104%N (stripAnsi red_hello) /\ In 104%N red_hello
  /\ stripAnsi hello = hello.
Proof.
  destruct stripAnsi_only_deletes as (_ & H1 & H2).
  assert (Hin : In 104%N (stripAnsi red_hello)) by (vm_compute; tauto).
  split; [exact Hin|]. split; [exact (H1 red_hello 104%N Hin)|].
  apply H2. intros c Hc. vm_compute in Hc.
  repeat (destruct Hc as [<-|Hc]; [split; discriminate|]). contradiction.
Defined.

(** X9. [stripAnsi] works line by line: no match of its pattern contains or
    crosses a line feed, so the lines of the stripped text are the stripped
    lines of the text, and the text keeps its number of lines. *)
Theorem stripAnsi_line_by_line :
  forall s : jsstring,
    split_lines (stripAnsi s) = map stripAnsi (split_lines s)
    /\ List.length (split_lines (stripAnsi s))
       = List.length (split_lines s).
Proof.
  intros s. rewrite <- stripAnsi_split_lines. split; [reflexivity|].
  apply length_map.
Qed.

(** X10. [stripAnsi] undoes the colouring chalk applies at its basic
    colour level: a text without ESC and CSI wrapped in the opening
    sequence of any of the six colours the program uses and the closing
    sequence 39 is stripped back to the text itself. *)
Theorem stripAnsi_undoes_chalk :
  forall (c : Color) (s : jsstring),
    without_introducer s -> stripAnsi (chalk_basic c s) = s.
Proof.
  intros c s H. unfold stripAnsi, chalk_basic.
  rewrite erase_cons.
  match goal with
  | |- context [exec ansiRegex ?x] =>
      assert (Hex : exec ansiRegex x = Some (s ++ 27%N :: lit "[39m"))
        by (destruct c; reflexivity)
  end.
  rewrite Hex.
  match goal with
  | |- context [Nat.ltb ?a ?b] =>
      assert (Hlt : Nat.ltb a b = true)
        by (apply Nat.ltb_lt; destruct c; cbn; rewrite !length_app; cbn; lia)
  end.
  rewrite Hlt, (erase_plain_prefix _ H).
  replace (erase ansiRegex (27%N :: lit "[39m")) with (@nil code_unit)
    by (vm_compute; reflexivity).
  apply app_nil_r.
Qed.

Lemma stripAnsi_undoes_chalk_witness :
  chalk_basic red hello = red_hello
  /\ stripAnsi (chalk_basic red hello) = hello.
Proof.
  split; [reflexivity|].
  apply stripAnsi_undoes_chalk. intros c Hc. vm_compute in Hc.
  repeat (destruct Hc as [<-|Hc]; [split; discriminate|]). contradiction.
Defined.

(* ====================================================================== *)
(** ** The rows of the frame *)
(* ====================================================================== *)



(* ====================================================================== *)
(** ** The handler of tool calls *)
(* ====================================================================== *)

(** X13. The handler answers every request: a request for another tool gets
    the text "Unknown tool: " followed by the requested name and leaves the
    instance untouched; a request for [better_thinking] gets the reply of
    [processThought] on its arguments, which never throws, so the promise
    of the handler is never rejected. *)
Theorem every_tool_call_is_answered (platform : Platform) :
  forall (request : CallToolRequest) (s : Server),
    (name request <> better_thinking ->
     call_tool_handler request s
     = (Returned (reply_unknown_tool (lit "Unknown tool: " ++ name request)),
        {| toolLogic := toolLogic s;
           unknown_tool_errors :=
             unknown_tool_errors s
             ++ [(List.length (console (toolLogic s)), name request)] |}))
    /\ (name request = better_thinking ->
        exists r,
          processThought (arguments request) (toolLogic s)
          = (Returned r, toolLogic (snd (call_tool_handler request s)))
          /\ fst (call_tool_handler request s) = Returned (reply_of_tool r)
          /\ unknown_tool_errors (snd (call_tool_handler request s))
             = unknown_tool_errors s).
Proof.
  intros request s. unfold call_tool_handler. split.
  - intros Hn. apply str_eqb_neq in Hn. now rewrite Hn.
  - intros He. rewrite He, str_eqb_refl.
    destruct (processThought_replies (arguments request) (toolLogic s))
      as (r & w' & -> & _).
    exists r. now cbn.
Qed.

Lemma every_tool_call_is_answered_witness :
  fst (@call_tool_handler plain_platform other_request started)
  = Returned (reply_unknown_tool (lit "Unknown tool: sequential_thinking"))
  /\ exists r,
       fst (@call_tool_handler plain_platform (tool_request JUndefined)
              started)
       = Returned (reply_of_tool r).
Proof.
  destruct (@every_tool_call_is_answered plain_platform other_request started)
    as [H1 _].
  destruct (@every_tool_call_is_answered plain_platform
              (tool_request JUndefined) started) as [_ H2].
  split.
  - rewrite (H1 ltac:(discriminate)). reflexivity.
  - destruct (H2 eq_refl) as (r & _ & Hr & _). now exists r.
Defined.

(** X15. Only requests for [better_thinking] reach the instance: after any
    sequence of requests its state is the one the calls of [processThought]
    on the arguments of those requests, in order, produce; requests for
    other tools leave history, branches and the console of the instance
    alone. *)
Theorem instance_sees_only_its_tool_calls (platform : Platform) :
  forall (requests : list CallToolRequest) (s : Server),
    toolLogic (serve requests s)
    = run (map arguments
               (filter (fun request => str_eqb (name request) better_thinking)
                       requests))
          (toolLogic s).
Proof.
  induction requests as [|request rest IH]; intros s; [reflexivity|].
  cbn [serve fold_left filter].
  change (fold_left _ rest ?x) with (serve rest x).
  rewrite IH. unfold call_tool_handler.
  destruct (str_eqb (name request) better_thinking); [|reflexivity].
  cbn [map run fold_left].
  now destruct (processThought (arguments request) (toolLogic s))
    as [[r|e] this].
Qed.

(* ====================================================================== *)
(** ** The Steps of the history *)
(* ====================================================================== *)

Lemma positive_integer_positive (v : JsVal) (n : JsNum) :
  positive_integer v = Some n -> positive_number n = true.
Proof.
  unfold positive_integer, positive_number.
  destruct v as [ | | |m| | | ]; try discriminate.
  destruct (isInteger m && num_ge m (int 1)) eqn:E; [|discriminate].
  intros H. now injection H as <-.
Qed.

Lemma required_number_positive (n : JsNum) :
  isInteger n = true -> num_lt n (int 1) = false -> positive_number n = true.
Proof.
  intros Hi Hl. unfold positive_number. rewrite Hi. cbn.
  destruct (isInteger_finite _ Hi) as [q ->].
  unfold num_ge. apply (num_lt_false_le (a := Fin q) (b := int 1));
    [discriminate | discriminate | exact Hl].
Qed.

Lemma items_have_entities (items : list JsVal)
      (kas : list KnowledgeAssessment) :
  Forall2 item_accepts items kas ->
  forall ka, In ka kas -> entity ka <> [].
Proof.
  induction 1 as [|item ka0 items kas (_ & Hne & _) _ IH]; intros ka Hin.
  - destruct Hin.
  - destruct Hin as [<-|Hin]; [exact Hne | now apply IH].
Qed.

Lemma accepted_step_well_formed (input : JsVal) (td : ThoughtData) :
  accepts input td -> well_formed (adjusted td).
Proof.
  intros Ha. pose proof (consistent_adjusted Ha) as Hc.
  destruct Ha as [[_ Hth] (_ & Hni & Hnl) (_ & Hti & Htl) _ Hcs Hka _ Hrt
                    Hbf _].
  pose proof (required_number_positive _ Hni Hnl) as Hpn.
  pose proof (required_number_positive _ Hti Htl) as Hpt.
  rewrite adjusted_as_update in *. unfold well_formed. cbn in *.
  split; [exact Hth|]. split; [exact Hpn|].
  split; [now destruct (num_gt (thoughtNumber td) (totalThoughts td))|].
  split; [exact Hc|]. split; [|split; [|split]].
  - intros c Hc'. rewrite Hc' in Hcs.
    destruct (field input "confidence_score"); try contradiction;
      [discriminate|].
    destruct Hcs as (H & H0 & H1). injection H as <-. now split.
  - intros kas ka Hk Hin. rewrite Hk in Hka.
    destruct (field input "knowledge_assessment"); try contradiction;
      [discriminate|].
    destruct Hka as (kas' & H & HF). injection H as <-.
    exact (items_have_entities HF ka Hin).
  - intros n Hn. rewrite Hn in Hrt. symmetry in Hrt.
    exact (positive_integer_positive _ Hrt).
  - intros n Hn. rewrite Hn in Hbf. symmetry in Hbf.
    exact (positive_integer_positive _ Hbf).
Qed.

(** X16. No partially valid Step is ever in the history: in every state
    reached from a fresh instance, each Step of the history has a non-empty
    thought, positive integers as [thoughtNumber] and [totalThoughts] with
    the total not below the number, a confidence score (if any) that is
    neither below 0 nor above 1, knowledge assessments with non-empty
    entities, and positive integers as [revisesThought] and
    [branchFromThought] when it has them. *)
Theorem history_holds_well_formed_steps (platform : Platform) :
  forall (inputs : list JsVal) (td : ThoughtData),
    In td (thoughtHistory (run inputs fresh)) -> well_formed td.
Proof.
  intros inputs.
  assert (H : Forall well_formed (thoughtHistory (run inputs fresh))).
  { assert (G : forall w, Forall well_formed (thoughtHistory w) ->
                          Forall well_formed (thoughtHistory (run inputs w))).
    { induction inputs as [|input rest IH]; intros w Hw; [exact Hw|].
      cbn [run fold_left]. change (fold_left _ rest ?x) with (run rest x).
      apply IH. rewrite process_history.
      destruct (result_of (validateThoughtData input)) as [td|e] eqn:E;
        [|exact Hw].
      apply Forall_app. split; [exact Hw|]. constructor; [|constructor].
      apply validate_accepts in E. exact (accepted_step_well_formed E). }
    apply G. constructor. }
  intros td Hin. rewrite Forall_forall in H. now apply H.
Qed.

Lemma history_holds_well_formed_steps_witness :
  well_formed (set_totalThoughts step_5_of_3 (int 5)).
Proof.
  apply (@history_holds_well_formed_steps plain_platform
           [object (required_fields 5 3)]).
  vm_compute. now left.
Defined.

(* ====================================================================== *)
(** ** The confidence score of an input that arrives as JSON *)
(* ====================================================================== *)

(** No property of a value read from JSON is NaN. *)
Lemma from_JSON_field (input : JsVal) (k : string) :
  from_JSON input = true -> field input k <> JNum NaN.
Proof.
  intros H. unfold field. destruct input as [ | | | | | |props];
    try discriminate.
  cbn [from_JSON] in H.
  induction props as [|[k' v] props IH]; [discriminate|].
  cbn [forallb snd] in H. apply andb_true_iff in H as [Hv Hr].
  unfold assoc; fold (@assoc JsVal).
  destruct (str_eqb (lit k) k').
  - intros ->. discriminate Hv.
  - exact (IH Hr).
Qed.

(** On every number but NaN the two comparisons of the source let through
    the interval from 0 to 1 and nothing else. *)
Lemma let_through_within (v : JsVal) :
  v <> JNum NaN -> v <> JUndefined ->
  confidence_let_through v = within_0_1 v.
Proof.
  intros Hn Hu. destruct v as [ | | |c| | | ]; try reflexivity;
    [congruence|].
  assert (Hc : c <> NaN) by congruence.
  assert (H0 : int 0 <> NaN) by discriminate.
  assert (H1 : int 1 <> NaN) by discriminate.
  unfold confidence_let_through, within_0_1, num_gt.
  pose proof (num_lt_false_le Hc H0) as L0.
  pose proof (num_lt_false_le H1 Hc) as L1.
  destruct (num_lt c (int 0)), (num_lt (int 1) c),
    (num_le (int 0) c), (num_le c (int 1)); cbn; try reflexivity;
    intuition congruence.
Qed.

(** The message about [confidence_score] belongs to one error only. *)
Lemma confidence_message_only (e : Thrown) :
  message e = message Invalid_confidence_score ->
  e = Invalid_confidence_score.
Proof.
  destruct e as [ | | | | | |i|i|i|of_null property| ]; try reflexivity;
    unfold message, at_index; cbn; intros H; discriminate H.
Qed.

(** When the four required fields are good, the validator throws what the
    check of [confidence_score] throws. *)
Lemma validator_at_confidence_score (input : JsVal) :
  reaches_confidence_score input = true ->
  result_of (validateThoughtData input)
  = match result_of (optional_confidence_score input) with
    | Threw e => Threw e
    | Returned score =>
        match result_of (validateThoughtData input) with
        | Threw e => Threw e
        | Returned td => Returned td
        end
    end.
Proof.
  intros Hr. unfold reaches_confidence_score, passes in Hr.
  rewrite validate_result.
  destruct (result_of (required_thought input)); [|discriminate Hr].
  destruct (result_of (required_positive_integer input "thoughtNumber" _));
    [|discriminate Hr].
  destruct (result_of (required_positive_integer input "totalThoughts" _));
    [|discriminate Hr].
  destruct (result_of (required_boolean input "nextThoughtNeeded" _));
    [|discriminate Hr].
  destruct (result_of (optional_confidence_score input)); [|reflexivity].
  now destruct (result_of (optional_knowledge_assessment input)).
Qed.

(** No check but the one of [confidence_score] throws its error. *)
Lemma confidence_error_from_its_check (input : JsVal) :
  result_of (validateThoughtData input) = Threw Invalid_confidence_score ->
  result_of (optional_confidence_score input)
  = Threw Invalid_confidence_score.
Proof.
  rewrite validate_result.
  assert (Ht : result_of (required_thought input)
               <> Threw Invalid_confidence_score).
  { unfold result_of, required_thought, bind, read_first.
    destruct input; cbn; try discriminate;
      destruct (field _ "thought") as [ | | | |[|c s]| | ]; cbn;
      discriminate. }
  destruct (result_of (required_thought input)) as [th|e];
    [|intros H; congruence].
  rewrite !required_positive_integer_result, required_boolean_result.
  destruct (positive_integer (field input "thoughtNumber"));
    [|discriminate].
  destruct (positive_integer (field input "totalThoughts"));
    [|discriminate].
  destruct (field input "nextThoughtNeeded"); try discriminate.
  destruct (result_of (optional_confidence_score input)) as [score|e];
    [|intros H; congruence].
  rewrite optional_knowledge_assessment_result.
  destruct (field input "knowledge_assessment") as [ | | | | |items| ];
    try discriminate.
  destruct (result_of (map_items items 0)) as [kas|e] eqn:Hm;
    [discriminate|].
  intros H. injection H as ->.
  destruct (map_items_throws _ _ Hm) as [index Hx]. destruct Hx as [Hx|[Hx|Hx]]; discriminate Hx.
Qed.

Section Confidence.
Context {platform : Platform}.

(** A call whose reply carries the message about [confidence_score] was
    refused by the check of [confidence_score]. *)
Lemma confidence_message_from_its_check (input : JsVal) (w w' : World)
      (r : ToolResult) :
  processThought input w = (Returned r, w') ->
  content r = failed (message Invalid_confidence_score) ->
  result_of (optional_confidence_score input)
  = Threw Invalid_confidence_score.
Proof.
  intros H Hc.
  destruct (result_of (validateThoughtData input)) as [td|e] eqn:E.
  - exfalso. rewrite (process_accepted _ w E), track_branch_run in H.
    destruct (branch_key (adjusted td)) as [[id from]|].
    + destruct (assoc id (branches (pushed input td w))) as [steps|];
        [|destruct (inherited id)];
        injection H as <- _; discriminate Hc.
    + injection H as <- _. discriminate Hc.
  - rewrite (process_rejected _ w E) in H. injection H as <- _.
    cbn in Hc. injection Hc as Hm.
    apply confidence_message_only in Hm. subst e.
    exact (confidence_error_from_its_check _ E).
Qed.

End Confidence.

(** C6. Take an input that arrives as JSON and has a [confidence_score].
    When the value is not a number from 0 to 1, every call fails; and when
    the four required fields are good, validation throws the error of
    [confidence_score] and the reply and the console carry its message,
    text [Invalid input: `confidence_score` must be a number between 0.0
    and 1.0.].  When the value is a number from 0 to 1, no call ever replies
    with that message; and when the required fields and the knowledge
    assessment are good, the validator returns a Step that holds the value.
    With the required fields of the example, 1.5 gives the failure with
    that message and stores nothing, 0.7 gives a success. *)
Theorem confidence_score_outside_0_1_is_refused (platform : Platform) :
  (forall input : JsVal,
      from_JSON input = true ->
      field input "confidence_score" <> JUndefined ->
      (within_0_1 (field input "confidence_score") = false ->
       (exists e, forall w,
             processThought input w
             = (Returned (failure e), w_log w [error_processing (message e)]))
       /\ (reaches_confidence_score input = true ->
           result_of (validateThoughtData input)
           = Threw Invalid_confidence_score
           /\ forall w,
               processThought input w
               = (Returned
                    {| content :=
                         failed (lit "Invalid input: `confidence_score` must be a number between 0.0 and 1.0.");
                       isError := Some true |},
                  w_log w
                    [error_processing
                       (lit "Invalid input: `confidence_score` must be a number between 0.0 and 1.0.")])))
      /\ (within_0_1 (field input "confidence_score") = true ->
          (forall w r w',
              processThought input w = (Returned r, w') ->
              content r
              <> failed (lit "Invalid input: `confidence_score` must be a number between 0.0 and 1.0."))
          /\ (reaches_confidence_score input = true ->
              passes (optional_knowledge_assessment input) = true ->
              exists td c,
                result_of (validateThoughtData input) = Returned td
                /\ field input "confidence_score" = JNum c
                /\ confidence_score td = Some c)))
  /\ processThought
       (with_fields [("confidence_score", JNum (Fin (15 # 10)))]%string) fresh
     = (Returned
          {| content :=
               failed (lit "Invalid input: `confidence_score` must be a number between 0.0 and 1.0.");
             isError := Some true |},
        {| thoughtHistory := [];
           branches := [];
           console :=
             [error_processing
                (lit "Invalid input: `confidence_score` must be a number between 0.0 and 1.0.")] |})
  /\ (exists r w',
         processThought
           (with_fields [("confidence_score", JNum (Fin (7 # 10)))]%string)
           fresh
         = (Returned r, w')
         /\ is_success r = true
         /\ map confidence_score (thoughtHistory w') = [Some (Fin (7 # 10))]).
Proof.
  split; [|split].
  - intros input Hj Hp.
    pose proof (from_JSON_field input "confidence_score" Hj) as Hn.
    pose proof (let_through_within Hn Hp) as Hl.
    pose proof (optional_confidence_score_result input) as Hs.
    rewrite Hl in Hs. split; intros Hw; rewrite Hw in Hs.
    + assert (Hv : exists e, result_of (validateThoughtData input) = Threw e).
      { rewrite validate_result.
        destruct (result_of (required_thought input)); [|eauto].
        destruct (result_of (required_positive_integer input
                               "thoughtNumber" _)); [|eauto].
        destruct (result_of (required_positive_integer input
                               "totalThoughts" _)); [|eauto].
        destruct (result_of (required_boolean input "nextThoughtNeeded" _));
          [|eauto].
        rewrite Hs. eauto. }
      split.
      * destruct Hv as [e He]. exists e. intros w.
        exact (process_rejected _ w He).
      * intros Hr.
        assert (He : result_of (validateThoughtData input)
                     = Threw Invalid_confidence_score)
          by (now rewrite (validator_at_confidence_score _ Hr), Hs).
        split; [exact He|]. intros w. exact (process_rejected _ w He).
    + split.
      * intros w r w' H Hc.
        pose proof (confidence_message_from_its_check _ _ H Hc) as Ht.
        congruence.
      * intros Hr Hk. unfold passes in Hk.
        unfold reaches_confidence_score, passes in Hr.
        rewrite validate_result.
        destruct (result_of (required_thought input)); [|discriminate Hr].
        destruct (result_of (required_positive_integer input
                               "thoughtNumber" _)); [|discriminate Hr].
        destruct (result_of (required_positive_integer input
                               "totalThoughts" _)); [|discriminate Hr].
        destruct (result_of (required_boolean input "nextThoughtNeeded" _));
          [|discriminate Hr].
        rewrite Hs.
        destruct (result_of (optional_knowledge_assessment input));
          [|discriminate Hk].
        destruct (field input "confidence_score") as [ | | |c| | | ];
          try discriminate Hw.
        eexists; exists c. split; [reflexivity|]. split; reflexivity.
  - vm_compute. reflexivity.
  - eexists; eexists. split; [vm_compute; reflexivity|].
    split; reflexivity.
Qed.

Lemma confidence_score_outside_0_1_is_refused_witness :
  let input :=
    with_fields [("confidence_score", JNum (Fin (15 # 10)))]%string in
  from_JSON input = true
  /\ within_0_1 (field input "confidence_score") = false
  /\ result_of (validateThoughtData input) = Threw Invalid_confidence_score.
Proof.
  intros input.
  assert (Hj : from_JSON input = true) by (vm_compute; reflexivity).
  assert (Hp : field input "confidence_score" <> JUndefined)
    by (vm_compute; discriminate).
  assert (Hw : within_0_1 (field input "confidence_score") = false)
    by (vm_compute; reflexivity).
  assert (Hr : reaches_confidence_score input = true)
    by (vm_compute; reflexivity).
  destruct (confidence_score_outside_0_1_is_refused plain_platform)
    as [H _].
  destruct (H input Hj Hp) as [Hout _].
  destruct (Hout Hw) as [_ Hreach].
  split; [exact Hj|]. split; [exact Hw|]. exact (proj1 (Hreach Hr)).
Defined.

(* ====================================================================== *)
(** ** The index reported for a knowledge assessment *)
(* ====================================================================== *)






(* ====================================================================== *)
(** ** The rows of the frame *)
(* ====================================================================== *)

(** C8 (the code departs from the claim). The thought [hi] and the same
    thought between the control sequences for red and for the default
    colour differ only by control sequences, and both inputs can arrive as
    JSON.  Both calls succeed, the computed width is 16 for both, and the
    borders and the header row of the two frames are displayed equally
    wide; but the row of the thought is padded to the computed width
    counting the control sequences as text: displayed, it is 24 wide for
    the plain thought and 14 wide for the red one, so the right side of the
    second frame is 10 columns short.  The same happens to the header row
    of an ordinary Step once chalk colours the label: with a thought of 39
    characters the header row is displayed 37 wide and the row of the
    thought 47 wide, where without colours both are 47 wide. *)
Theorem rows_padded_on_raw_length :
  stripAnsi red_hi = plain_hi
  /\ stripAnsi plain_hi = plain_hi
  /\ List.length plain_hi = 2
  /\ List.length red_hi = 12
  /\ from_JSON (input_with_thought plain_hi) = true
  /\ from_JSON (input_with_thought red_hi) = true
  /\ (exists r w',
         @processThought plain_platform (input_with_thought plain_hi) fresh
         = (Returned r, w')
         /\ is_success r = true
         /\ map (@maxWidth plain_platform) (thoughtHistory w') = [16]
         /\ map displayed_widths (frames w') = [[0; 60; 24; 60; 24; 60]])
  /\ (exists r w',
         @processThought plain_platform (input_with_thought red_hi) fresh
         = (Returned r, w')
         /\ is_success r = true
         /\ map (@maxWidth plain_platform) (thoughtHistory w') = [16]
         /\ map displayed_widths (frames w') = [[0; 60; 24; 60; 14; 60]])
  /\ (exists r w',
         @processThought plain_platform (input_with_thought hello) fresh
         = (Returned r, w')
         /\ is_success r = true
         /\ map (@maxWidth plain_platform) (thoughtHistory w') = [39]
         /\ map displayed_widths (frames w') = [[0; 129; 47; 129; 47; 129]])
  /\ (exists r w',
         @processThought colour_platform (input_with_thought hello) fresh
         = (Returned r, w')
         /\ is_success r = true
         /\ map (@maxWidth colour_platform) (thoughtHistory w') = [39]
         /\ map displayed_widths (frames w') = [[0; 129; 37; 129; 47; 129]]).
Proof.
  split; [vm_compute; reflexivity|]. split; [vm_compute; reflexivity|].
  split; [reflexivity|]. split; [reflexivity|].
  split; [vm_compute; reflexivity|]. split; [vm_compute; reflexivity|].
  repeat split;
    (eexists; eexists; split; [vm_compute; reflexivity|];
     split; [reflexivity|]; split; vm_compute; reflexivity).
Qed.
